(** * Estacionario: sliding-window stationarity analysis of gold futures

    A shallow embedding of [app.py].  The script downloads a table of price
    bars, slides a window of [ventana_dias] calendar dates over it, runs a
    unit-root test (ADF), a level-stationarity test (KPSS) and a Hurst
    exponent estimator on the returns of each window, tabulates the outcomes
    and reduces the table to three percentages.

    Conventions of the embedding.
    - A Python [float] is idealised as a rational; [None : option Q] stands
      for NaN and for Python's [None] (pandas stores both as a missing value).
    - A pandas [DataFrame] is an index together with a finite map from column
      names to columns.  A timestamp of the index is a number of seconds of
      local wall-clock time, so that its calendar date is the day number.
    - Python exceptions are values of [Exn]; a call that may raise returns
      [Exn + A].  A function that mutates its argument returns the mutated
      object next to its result.
    - statsmodels, hurst, numpy and yfinance are not part of the repository:
      their routines are the fields of the class [Routines].  Where a
      property depends on state that these libraries keep between calls, the
      analysis is rendered a second time with that state passed along
      (class [RutinasEstado]); the two renderings agree for routines that
      ignore the state ([analizar_estacionariedad_st_sin_estado]). *)

From Stdlib Require Import QArith Qround ZArith.
From stdpp Require Import gmap strings list sorting pretty.

Local Open Scope string_scope.
Local Open Scope list_scope.
Local Open Scope Z_scope.

(** ** Exceptions and fallible computations *)

Inductive Exn : Type :=
  | ValueError (msg : string)
  | FloatingPointError (msg : string)
  | KeyError (key : string)
  | TypeError (msg : string)
  | IndexError (msg : string)
  | OtherError (name msg : string).

Definition Result (A : Type) : Type := Exn + A.

Definition ok {A} (x : A) : Result A := inr x.
Definition raise {A} (e : Exn) : Result A := inl e.

Definition bind {A B} (m : Result A) (k : A → Result B) : Result B :=
  match m with
  | inl e => inl e
  | inr x => k x
  end.

Notation "x ←! m ; k" := (bind m (fun x => k))
  (at level 100, m at next level, right associativity,
   format "x  ←!  m ;  '/' k").

(** ** Floats, series and columns *)

Definition float : Type := option Q.

(** [x < y] on numbers. *)
Definition Qltb (x y : Q) : bool :=
  match (x ?= y)%Q with
  | Lt => true
  | _ => false
  end.

(** [x < c] and [x > c] on floats: a comparison with NaN is false. *)
Definition float_lt (x : float) (c : Q) : bool :=
  match x with
  | Some q => Qltb q c
  | None => false
  end.

Definition float_gt (x : float) (c : Q) : bool :=
  match x with
  | Some q => Qltb c q
  | None => false
  end.

Inductive Column : Type :=
  | Floats (xs : list float)
  | Dates (ds : list Z).

Record DataFrame : Type := mkDataFrame {
  index : list Z;
  columns : gmap string Column
}.

(** [df.empty]: some axis has length zero. *)
Definition empty (df : DataFrame) : bool :=
  bool_decide (index df = []) || bool_decide (size (columns df) = 0%nat).

(** [df[key]] *)
Definition getitem (df : DataFrame) (key : string) : Result Column :=
  match columns df !! key with
  | Some c => ok c
  | None => raise (KeyError key)
  end.

(** [df[key] = c] *)
Definition setitem (df : DataFrame) (key : string) (c : Column) : DataFrame :=
  mkDataFrame (index df) (<[key := c]> (columns df)).

(** Boolean-mask selection, [s[mask]] and [df[mask]]. *)
Fixpoint mask_list {A} (mask : list bool) (l : list A) : list A :=
  match mask, l with
  | b :: mask', x :: l' =>
      if b then x :: mask_list mask' l' else mask_list mask' l'
  | _, _ => []
  end.

Definition mask_column (mask : list bool) (c : Column) : Column :=
  match c with
  | Floats xs => Floats (mask_list mask xs)
  | Dates ds => Dates (mask_list mask ds)
  end.

Definition mask_frame (mask : list bool) (df : DataFrame) : DataFrame :=
  mkDataFrame (mask_list mask (index df)) (mask_column mask <$> columns df).

(** [df.head()] keeps the first five rows. *)
Definition head_column (c : Column) : Column :=
  match c with
  | Floats xs => Floats (take 5 xs)
  | Dates ds => Dates (take 5 ds)
  end.

Definition head (df : DataFrame) : DataFrame :=
  mkDataFrame (take 5 (index df)) (head_column <$> columns df).

(** [index.date]: the calendar date of a timestamp, as a day number. *)
Definition date_of (ts : Z) : Z := ts `div` 86400.

(** [s.isin(values)] *)
Definition isin (c : Column) (values : list Z) : list bool :=
  match c with
  | Dates ds => (fun d => bool_decide (d ∈ values)) <$> ds
  | Floats xs => (fun _ => false) <$> xs
  end.

(** [s.unique()]: the distinct values in order of first appearance. *)
Fixpoint unique_from (seen : list Z) (l : list Z) : list Z :=
  match l with
  | [] => []
  | x :: l' =>
      if bool_decide (x ∈ seen) then unique_from seen l'
      else x :: unique_from (x :: seen) l'
  end.

Definition unique (l : list Z) : list Z := unique_from [] l.

(** [sorted(l)] on dates. *)
Definition sorted (l : list Z) : list Z := merge_sort Z.le l.

(** [range(n)] *)
Definition range (n : Z) : list Z := Z.of_nat <$> seq 0 (Z.to_nat n).

(** [len(l)] *)
Definition len {A} (l : list A) : Z := Z.of_nat (length l).

(** [l[i:j]] with Python's treatment of negative and overlong bounds. *)
Definition slice_bound (n i : Z) : Z :=
  if i <? 0 then Z.max 0 (i + n) else Z.min i n.

Definition py_slice {A} (l : list A) (i j : Z) : list A :=
  let a := slice_bound (len l) i in
  let b := slice_bound (len l) j in
  take (Z.to_nat (b - a)) (drop (Z.to_nat a) l).

(** [l[0]] and [l[-1]] *)
Definition first_item {A} (l : list A) : Result A :=
  match l with
  | x :: _ => ok x
  | [] => raise (IndexError "list index out of range")
  end.

Definition last_item {A} (l : list A) : Result A :=
  match last l with
  | Some x => ok x
  | None => raise (IndexError "list index out of range")
  end.

(** [s.dropna()] *)
Definition dropna (xs : list float) : list Q := omap id xs.

(** [s.pct_change()]: the first entry is undefined, every other entry is
    the ratio to its predecessor minus one.  It is only applied to prices
    that are strictly positive. *)
Fixpoint pct_change_from (prev : Q) (xs : list Q) : list float :=
  match xs with
  | [] => []
  | x :: xs' => Some (x / prev - 1)%Q :: pct_change_from x xs'
  end.

Definition pct_change (xs : list Q) : list float :=
  match xs with
  | [] => []
  | x :: xs' => None :: pct_change_from x xs'
  end.

(** ** Routines of the libraries the script imports

    [adfuller] and [kpss] return the test statistic and the p-value (the
    first two components of the tuples of statsmodels), [compute_Hc] returns
    [H], [c] and the rescaled-range data; each of them may raise.  [np_sqrt]
    is the square root on floats and [yf_download] is what the market-data
    provider answers for a ticker, an interval and a period. *)

Class Routines : Type := {
  adfuller : list Q → Result (float * float);
  kpss : list Q → string → string → Result (float * float);
  compute_Hc : list Q → string → bool → Result (float * float * list (list Q));
  np_sqrt : Q → Q;
  yf_download : string → string → string → DataFrame
}.

(** ** pandas reductions *)

Definition Qsum (xs : list Q) : Q := foldr Qplus 0%Q xs.

(** [s.std(ddof)]: the square root of the sum of squared deviations from
    the mean over [n - ddof]; NaN when [n <= ddof]. *)
Definition Series_std `{R : Routines} (ddof : nat) (xs : list Q) : float :=
  let n := length xs in
  if (n <=? ddof)%nat then None
  else
    let m := (Qsum xs / inject_Z (Z.of_nat n))%Q in
    let ss := Qsum ((fun x => (x - m) * (x - m))%Q <$> xs) in
    Some (np_sqrt (ss / inject_Z (Z.of_nat (n - ddof))))%Q.

(** The default of pandas for [ddof]. *)
Definition ddof_default : nat := 1.

(** [count] of the true entries of a boolean series. *)
Definition count_true (bs : list bool) : nat := length (filter (fun b => b = true) bs).

(** [s.mean()] on a boolean series: NaN on an empty one. *)
Definition mean_bool (bs : list bool) : float :=
  match bs with
  | [] => None
  | _ => Some (inject_Z (Z.of_nat (count_true bs)) / inject_Z (len bs))%Q
  end.

(** [x * 100] on floats. *)
Definition times_100 (x : float) : float := (fun q => q * 100)%Q <$> x.

(** [s < c] and [s > c] on a column. *)
Definition col_lt (c : Column) (k : Q) : Result (list bool) :=
  match c with
  | Floats xs => ok ((fun x => float_lt x k) <$> xs)
  | Dates _ => raise (TypeError "'<' not supported between 'datetime.date' and 'float'")
  end.

Definition col_gt (c : Column) (k : Q) : Result (list bool) :=
  match c with
  | Floats xs => ok ((fun x => float_gt x k) <$> xs)
  | Dates _ => raise (TypeError "'>' not supported between 'datetime.date' and 'float'")
  end.

(** [a & b] on boolean series. *)
Definition and_series (a b : list bool) : list bool := zip_with andb a b.

(** ** Dictionaries and rows built by the script *)

(** [resultados['ADF']] *)
Record ADFEntry : Type := mkADF {
  adf_p_value : float;
  adf_estadistico : float
}.

(** [resultados['KPSS']]: either the p-value with the statistic, or a null
    p-value with the text of the error. *)
Inductive KPSSEntry : Type :=
  | KPSSValues (p_value estadistico : float)
  | KPSSError (error : string).

(** [d.get('p-value')] *)
Definition get_p_value (d : KPSSEntry) : float :=
  match d with
  | KPSSValues p _ => p
  | KPSSError _ => None
  end.

Record Pruebas : Type := mkPruebas {
  ADF : ADFEntry;
  KPSS : KPSSEntry
}.

(** One dictionary appended to [resultados]. *)
Record WindowResult : Type := mkWindowResult {
  Inicio_Ventana : Z;
  Fin_Ventana : Z;
  ADF_p_value : float;
  KPSS_p_value : float;
  Hurst_Exponent : float;
  Volatilidad : float
}.

(** [pd.DataFrame(rows)]: an empty list gives a frame without columns,
    otherwise the keys of the dictionaries are the columns. *)
Definition pd_DataFrame (rows : list WindowResult) : DataFrame :=
  match rows with
  | [] => mkDataFrame [] ∅
  | _ =>
      mkDataFrame (range (len rows))
        (<["Inicio Ventana" := Dates (Inicio_Ventana <$> rows)]>
        (<["Fin Ventana" := Dates (Fin_Ventana <$> rows)]>
        (<["ADF p-value" := Floats (ADF_p_value <$> rows)]>
        (<["KPSS p-value" := Floats (KPSS_p_value <$> rows)]>
        (<["Hurst Exponent" := Floats (Hurst_Exponent <$> rows)]>
        (<["Volatilidad" := Floats (Volatilidad <$> rows)]> ∅))))))
  end.

(** ** The functions of [app.py] *)

Section App.
Context `{R : Routines}.

Definition descargar_datos_oro (interval period : string) : DataFrame :=
  let simbolo := "GC=F" in
  yf_download simbolo interval period.

Definition pruebas_estacionariedad (data : list Q) : Result Pruebas :=
  adf_result ←! adfuller data;
  let adf := mkADF (snd adf_result) (fst adf_result) in
  match kpss data "c" "auto" with
  | inr kpss_result =>
      ok (mkPruebas adf (KPSSValues (snd kpss_result) (fst kpss_result)))
  | inl (ValueError e) =>
      ok (mkPruebas adf (KPSSError e))
  | inl e => raise e
  end.

Definition calcular_hurst (data : list Q) : Result float :=
  if len data <? 100 then ok None
  else
    match compute_Hc data "price" true with
    | inr (H, _, _) => ok H
    | inl (FloatingPointError _) => ok None
    | inl e => raise e
    end.

(** The body of the loop for the start index [i]: [None] is [continue],
    [Some r] is the dictionary appended to [resultados]. *)
Definition evaluar_ventana (data : DataFrame) (fechas_unicas : list Z)
    (ventana_dias i : Z) : Result (option WindowResult) :=
  let ventana := py_slice fechas_unicas i (i + ventana_dias) in
  date ←! getitem data "date";
  let subset := mask_frame (isin date ventana) data in
  close ←! getitem subset "Close";
  close' ←! getitem subset "Close";
  positivos ←! col_gt close' 0%Q;
  let precios :=
    match close with
    | Floats xs => dropna (mask_list positivos xs)
    | Dates _ => []
    end in
  if len precios <? 2 then ok None
  else
    let retornos := dropna (pct_change precios) in
    estacionariedad ←! pruebas_estacionariedad retornos;
    hurst ←! calcular_hurst retornos;
    inicio ←! first_item ventana;
    fin ←! last_item ventana;
    ok (Some (mkWindowResult inicio fin
                (adf_p_value (ADF estacionariedad))
                (get_p_value (KPSS estacionariedad))
                hurst
                (Series_std ddof_default retornos))).

(** The [for] loop: the bodies run in order, appending to [resultados];
    an exception ends the loop. *)
Fixpoint for_each (body : Z → Result (option WindowResult)) (idx : list Z)
    (resultados : list WindowResult) : Result (list WindowResult) :=
  match idx with
  | [] => ok resultados
  | i :: idx' =>
      match body i with
      | inl e => raise e
      | inr None => for_each body idx' resultados
      | inr (Some r) => for_each body idx' (resultados ++ [r])
      end
  end.

(** [analizar_estacionariedad] assigns the column ['date'] of its argument:
    the frame after the call is returned with the result.  The column read
    back on the next line is the one just assigned, so the branch for a
    column of floats is never taken ([analizar_estacionariedad_eq]). *)
Definition analizar_estacionariedad (data : DataFrame) (ventana_dias : Z)
    : DataFrame * Result DataFrame :=
  let data := setitem data "date" (Dates (date_of <$> index data)) in
  (data,
   date ←! getitem data "date";
   match date with
   | Floats _ => raise (TypeError "dates expected")
   | Dates ds =>
       let fechas_unicas := sorted (unique ds) in
       resultados ←!
         for_each (evaluar_ventana data fechas_unicas ventana_dias)
           (range (len fechas_unicas - ventana_dias + 1)) [];
       ok (pd_DataFrame resultados)
   end).
End App.

(** ** The report *)

(** Rounding to the nearest integer, ties to even. *)
Definition round_half_even (q : Q) : Z :=
  let f := Qfloor q in
  match (q - inject_Z f ?= 1 # 2)%Q with
  | Lt => f
  | Gt => f + 1
  | Eq => if Z.even f then f else f + 1
  end.

(** The format specification [.2f], on the exact value.  The code formats
    the binary64 value of [count / total * 100]; the digits of the two agree
    except when rounding in binary64 moves the value across a rounding
    boundary of the second decimal. *)
Definition format_2f (x : float) : string :=
  match x with
  | None => "nan"
  | Some q =>
      let n := Z.abs (round_half_even (q * 100)) in
      (if Qltb q 0 then "-" else "") +:+ pretty (n `div` 100) +:+ "."
        +:+ pretty ((n `mod` 100) `div` 10) +:+ pretty (n `mod` 10)
  end.

Definition mensaje_sin_informacion : string :=
  "No hay suficiente información para realizar el análisis.".

(** The three percentages, the local variables of [generar_reporte]. *)
Definition estacionario_adf (df : DataFrame) : Result float :=
  c ←! getitem df "ADF p-value";
  b ←! col_lt c 0.05%Q;
  ok (times_100 (mean_bool b)).

Definition estacionario_kpss (df : DataFrame) : Result float :=
  c ←! getitem df "KPSS p-value";
  b ←! col_gt c 0.05%Q;
  ok (times_100 (mean_bool b)).

Definition hurst_estacionario (df : DataFrame) : Result float :=
  c1 ←! getitem df "Hurst Exponent";
  b1 ←! col_gt c1 0.4%Q;
  c2 ←! getitem df "Hurst Exponent";
  b2 ←! col_lt c2 0.6%Q;
  ok (times_100 (mean_bool (and_series b1 b2))).

(** The text of the f-string for given percentages. *)
Definition resumen (adf kpss hurst : float) : string :=
  "
    **Resumen del análisis**:
    - Probabilidad de que el oro sea estacionario (ADF): " +:+ format_2f adf +:+ "%
    - Probabilidad de que el oro sea estacionario (KPSS): " +:+ format_2f kpss +:+ "%
    - Exponente de Hurst indicando estacionariedad: " +:+ format_2f hurst +:+ "%
    ".

Definition generar_reporte (df : DataFrame) : Result string :=
  if empty df then ok mensaje_sin_informacion
  else
    adf ←! estacionario_adf df;
    kpss ←! estacionario_kpss df;
    hurst ←! hurst_estacionario df;
    ok (resumen adf kpss hurst).

(** ** The chart and the page *)

Inductive AxCall : Type :=
  | ax_plot (x y : Column) (label marker : string)
  | ax_set_title (s : string)
  | ax_axhline (y : Q) (color linestyle label : string)
  | ax_set_xlabel (s : string)
  | ax_set_ylabel (s : string)
  | ax_legend.

Definition Figure : Type := list AxCall.

Inductive StCall : Type :=
  | st_title (s : string)
  | st_write (s : string)
  | st_write_frame (df : DataFrame)
  | st_error (s : string)
  | st_success (s : string)
  | st_pyplot (fig : Figure).

(** The figure [graficar] draws before handing it to [st.pyplot]. *)
Definition graficar_fig (df : DataFrame) : Result Figure :=
  x1 ←! getitem df "Inicio Ventana";
  y1 ←! getitem df "ADF p-value";
  x2 ←! getitem df "Inicio Ventana";
  y2 ←! getitem df "KPSS p-value";
  ok [ax_plot x1 y1 "ADF p-value" "o";
      ax_plot x2 y2 "KPSS p-value" "o";
      ax_set_title "Evolución de las pruebas de estacionariedad";
      ax_axhline 0.05%Q "red" "--" "Umbral de estacionariedad (0.05)";
      ax_set_xlabel "Fecha";
      ax_set_ylabel "p-value";
      ax_legend].

(** [graficar]: the calls made on the page, and how the function ends. *)
Definition graficar (df : DataFrame) : list StCall * Result unit :=
  match graficar_fig df with
  | inl e => ([], raise e)
  | inr fig => ([st_pyplot fig], ok tt)
  end.

(** A run of the module: the calls made on the page in order, the table
    [datos] as the run leaves it, and how the run ends. *)
Record Run : Type := mkRun {
  pagina : list StCall;
  datos_final : DataFrame;
  fin : Result unit
}.

Section Main.
Context `{R : Routines}.

Definition main : Run :=
  let p0 :=
    [st_title "Análisis de Estacionariedad del Oro";
     st_write "Este análisis evalúa la probabilidad de que el oro se comporte de forma estacionaria en el próximo día.";
     st_write "### Descargando datos..."] in
  let datos := descargar_datos_oro "15m" "5d" in
  if empty datos then
    mkRun (p0 ++ [st_error "No se pudieron descargar los datos del oro. Intenta nuevamente más tarde."])
      datos (ok tt)
  else
    let p1 := p0 ++
      [st_success "Datos descargados exitosamente.";
       st_write_frame (head datos);
       st_write "### Analizando datos..."] in
    let '(datos, r) := analizar_estacionariedad datos 2 in
    match r with
    | inl e => mkRun p1 datos (raise e)
    | inr resultados =>
        let p2 := p1 ++ [st_write_frame resultados] in
        match generar_reporte resultados with
        | inl e => mkRun p2 datos (raise e)
        | inr reporte =>
            let p3 := p2 ++ [st_write reporte; st_write "### Visualización de resultados"] in
            let '(g, r) := graficar resultados in
            mkRun (p3 ++ g) datos r
        end
    end.
End Main.

(** ** The libraries with their state

    What a statistical routine answers may depend on state that the
    libraries keep between calls (the floating-point error mode of numpy, a
    random generator), and a call may change that state.  This second
    rendering of the analysis passes the state [S] of the libraries to every
    call of [adfuller], [kpss] and [compute_Hc] and takes the new state from
    it; the script itself keeps no state besides the frame. *)

Class RutinasEstado (S : Type) : Type := {
  adfuller_st : S → list Q → S * Result (float * float);
  kpss_st : S → list Q → string → string → S * Result (float * float);
  compute_Hc_st : S → list Q → string → bool → S * Result (float * float * list (list Q));
  np_sqrt_st : Q → Q
}.

(** A computation that may raise, in the state of the libraries. *)
Definition St (S A : Type) : Type := S → S * Result A.

Definition lift_st {S A} (r : Result A) : St S A := fun s => (s, r).

Definition bind_st {S A B} (m : St S A) (k : A → St S B) : St S B :=
  fun s =>
    match m s with
    | (s1, inl e) => (s1, inl e)
    | (s1, inr x) => k x s1
    end.

Notation "x ←$ m ; k" := (bind_st m (fun x => k))
  (at level 100, m at next level, right associativity,
   format "x  ←$  m ;  '/' k").

Section AppEstado.
Context {S : Type} `{RS : RutinasEstado S}.

(** [s.std(ddof)] with the square root of these routines. *)
Definition Series_std_st (ddof : nat) (xs : list Q) : float :=
  let n := length xs in
  if (n <=? ddof)%nat then None
  else
    let m := (Qsum xs / inject_Z (Z.of_nat n))%Q in
    let ss := Qsum ((fun x => (x - m) * (x - m))%Q <$> xs) in
    Some (np_sqrt_st (ss / inject_Z (Z.of_nat (n - ddof))))%Q.

Definition pruebas_estacionariedad_st (data : list Q) : St S Pruebas :=
  adf_result ←$ (fun s => adfuller_st s data);
  let adf := mkADF (snd adf_result) (fst adf_result) in
  fun s =>
    match kpss_st s data "c" "auto" with
    | (s1, inr kpss_result) =>
        (s1, ok (mkPruebas adf (KPSSValues (snd kpss_result) (fst kpss_result))))
    | (s1, inl (ValueError e)) =>
        (s1, ok (mkPruebas adf (KPSSError e)))
    | (s1, inl e) => (s1, raise e)
    end.

Definition calcular_hurst_st (data : list Q) : St S float :=
  if len data <? 100 then lift_st (ok None)
  else
    fun s =>
      match compute_Hc_st s data "price" true with
      | (s1, inr (H, _, _)) => (s1, ok H)
      | (s1, inl (FloatingPointError _)) => (s1, ok None)
      | (s1, inl e) => (s1, raise e)
      end.

Definition evaluar_ventana_st (data : DataFrame) (fechas_unicas : list Z)
    (ventana_dias i : Z) : St S (option WindowResult) :=
  let ventana := py_slice fechas_unicas i (i + ventana_dias) in
  date ←$ lift_st (getitem data "date");
  let subset := mask_frame (isin date ventana) data in
  close ←$ lift_st (getitem subset "Close");
  close' ←$ lift_st (getitem subset "Close");
  positivos ←$ lift_st (col_gt close' 0%Q);
  let precios :=
    match close with
    | Floats xs => dropna (mask_list positivos xs)
    | Dates _ => []
    end in
  if len precios <? 2 then lift_st (ok None)
  else
    let retornos := dropna (pct_change precios) in
    estacionariedad ←$ pruebas_estacionariedad_st retornos;
    hurst ←$ calcular_hurst_st retornos;
    inicio ←$ lift_st (first_item ventana);
    fin ←$ lift_st (last_item ventana);
    lift_st (ok (Some (mkWindowResult inicio fin
                         (adf_p_value (ADF estacionariedad))
                         (get_p_value (KPSS estacionariedad))
                         hurst
                         (Series_std_st ddof_default retornos)))).

Fixpoint for_each_st (body : Z → St S (option WindowResult)) (idx : list Z)
    (resultados : list WindowResult) : St S (list WindowResult) :=
  match idx with
  | [] => lift_st (ok resultados)
  | i :: idx' =>
      fun s =>
        match body i s with
        | (s1, inl e) => (s1, raise e)
        | (s1, inr None) => for_each_st body idx' resultados s1
        | (s1, inr (Some r)) => for_each_st body idx' (resultados ++ [r]) s1
        end
  end.

(** The state of the libraries after the call, the frame after the call,
    and the table or the exception. *)
Definition analizar_estacionariedad_st (data : DataFrame) (ventana_dias : Z) (s : S)
    : S * (DataFrame * Result DataFrame) :=
  let data := setitem data "date" (Dates (date_of <$> index data)) in
  match getitem data "date" with
  | inl e => (s, (data, raise e))
  | inr (Floats _) => (s, (data, raise (TypeError "dates expected")))
  | inr (Dates ds) =>
      let fechas_unicas := sorted (unique ds) in
      match for_each_st (evaluar_ventana_st data fechas_unicas ventana_dias)
              (range (len fechas_unicas - ventana_dias + 1)) [] s with
      | (s1, inl e) => (s1, (data, raise e))
      | (s1, inr resultados) => (s1, (data, ok (pd_DataFrame resultados)))
      end
  end.
End AppEstado.

(** The answers of the routines do not depend on the state of the
    libraries. *)
Definition respuestas_sin_estado {S} (RS : RutinasEstado S) : Prop :=
  (∀ s s' xs, (adfuller_st s xs).2 = (adfuller_st s' xs).2)
  ∧ (∀ s s' xs reg lags, (kpss_st s xs reg lags).2 = (kpss_st s' xs reg lags).2)
  ∧ (∀ s s' xs kind simp, (compute_Hc_st s xs kind simp).2 = (compute_Hc_st s' xs kind simp).2).

(** Routines without state, seen as routines with a state they ignore. *)
Definition sin_estado (S : Type) (R : Routines) : RutinasEstado S := {|
  adfuller_st s xs := (s, adfuller xs);
  kpss_st s xs reg lags := (s, kpss xs reg lags);
  compute_Hc_st s xs kind simp := (s, compute_Hc xs kind simp);
  np_sqrt_st := np_sqrt
|}.

(** ** Notions used in the statements *)

(** The sorted distinct calendar dates of the index, [fechas_unicas]. *)
Definition fechas_de (data : DataFrame) : list Z :=
  sorted (unique (date_of <$> index data)).

(** The windows the loop goes through, in order. *)
Definition ventanas (data : DataFrame) (ventana_dias : Z) : list (list Z) :=
  (fun i => py_slice (fechas_de data) i (i + ventana_dias))
    <$> range (len (fechas_de data) - ventana_dias + 1).

(** The number of distinct calendar dates the index spans. *)
Definition fechas_distintas (data : DataFrame) : nat :=
  size (list_to_set (date_of <$> index data) : gset Z).

(** The prices of a window that the filter of the loop body keeps, from the
    dates [ds] and the ['Close'] values [close] of the rows. *)
Definition precios_validos (ds : list Z) (close : list float) (ventana : list Z)
    : list Q :=
  let sub := mask_list (isin (Dates ds) ventana) close in
  dropna (mask_list ((fun x => float_gt x 0) <$> sub) sub).

(** The number of rows of a frame. *)
Definition filas (df : DataFrame) : nat := length (index df).

Section Cuerpo.
Context `{R : Routines}.

(** What the loop body does once the valid prices of its window are
    known. *)
Definition evaluar_precios (ventana : list Z) (precios : list Q)
    : Result (option WindowResult) :=
  if len precios <? 2 then ok None
  else
    let retornos := dropna (pct_change precios) in
    estacionariedad ←! pruebas_estacionariedad retornos;
    hurst ←! calcular_hurst retornos;
    inicio ←! first_item ventana;
    fin ←! last_item ventana;
    ok (Some (mkWindowResult inicio fin
                (adf_p_value (ADF estacionariedad))
                (get_p_value (KPSS estacionariedad))
                hurst
                (Series_std ddof_default retornos))).
End Cuerpo.

(** The frame as [analizar_estacionariedad] leaves it. *)
Definition con_fecha (data : DataFrame) : DataFrame :=
  setitem data "date" (Dates (date_of <$> index data)).

(** The threshold predicates on a row of the table. *)
Definition adf_estacionaria (r : WindowResult) : bool :=
  float_lt (ADF_p_value r) 0.05%Q.

Definition kpss_estacionaria (r : WindowResult) : bool :=
  float_gt (KPSS_p_value r) 0.05%Q.

Definition hurst_estacionaria (r : WindowResult) : bool :=
  float_gt (Hurst_Exponent r) 0.4%Q && float_lt (Hurst_Exponent r) 0.6%Q.

(** Rows satisfying [p] over all rows, times 100. *)
Definition porcentaje (p : WindowResult → bool) (rows : list WindowResult) : Q :=
  (inject_Z (Z.of_nat (length (filter (fun r => p r = true) rows)))
   / inject_Z (Z.of_nat (length rows)) * 100)%Q.

(** ** Example inputs *)

(** Routines under which every test returns. *)
Definition rutinas_ejemplo (datos : DataFrame) : Routines := {|
  adfuller _ := ok (Some (-3)%Q, Some 0.01%Q);
  kpss _ _ _ := ok (Some 0.1%Q, Some 0.1%Q);
  compute_Hc _ _ _ := ok (Some 0.5%Q, Some 1%Q, []);
  np_sqrt q := q;
  yf_download _ _ _ := datos
|}.

(** Three calendar dates with two bars each. *)
Definition datos_tres_fechas : DataFrame :=
  mkDataFrame [0; 900; 86400; 87300; 172800; 173700]
    {[ "Close" := Floats [Some 10%Q; Some 11%Q; Some 12%Q; Some 11%Q; Some 13%Q; Some 14%Q] ]}.

(** Three calendar dates; the second has a missing price and the third a
    price that is not positive. *)
Definition datos_con_huecos : DataFrame :=
  mkDataFrame [0; 900; 86400; 172800]
    {[ "Close" := Floats [Some 10%Q; Some 11%Q; None; Some (-1)%Q] ]}.

(** A row with the unit-root p-value [p] and every nullable field null. *)
Definition fila_ejemplo (p : Q) : WindowResult :=
  mkWindowResult 0 1 (Some p) None None None.

(** Ten rows, six of them with a unit-root p-value below 0.05. *)
Definition diez_filas : list WindowResult :=
  replicate 6 (fila_ejemplo 0.01%Q) ++ replicate 4 (fila_ejemplo 0.5%Q).

(** [kpss] raises [ValueError], as statsmodels does on a series without
    variation; every other routine returns. *)
Definition rutinas_kpss_falla (datos : DataFrame) : Routines := {|
  adfuller _ := ok (Some (-3)%Q, Some 0.01%Q);
  kpss _ _ _ := raise (ValueError "cannot convert float NaN to integer");
  compute_Hc _ _ _ := ok (Some 0.5%Q, Some 1%Q, []);
  np_sqrt q := q;
  yf_download _ _ _ := datos
|}.

(** statsmodels refuses a sample that is too short for its default lag
    rule ([nobs // 2 - 2 < 0]); every other routine returns. *)
Definition rutinas_muestra_corta (datos : DataFrame) : Routines := {|
  adfuller xs :=
    if len xs `div` 2 - 2 <? 0
    then raise (ValueError "sample size is too short to use selected regression component")
    else ok (Some (-3)%Q, Some 0.01%Q);
  kpss _ _ _ := ok (Some 0.1%Q, Some 0.1%Q);
  compute_Hc _ _ _ := ok (Some 0.5%Q, Some 1%Q, []);
  np_sqrt q := q;
  yf_download _ _ _ := datos
|}.

(** Two calendar dates with one bar each: the only window of two dates has
    exactly two valid prices. *)
Definition datos_dos_precios : DataFrame :=
  mkDataFrame [0; 86400] {[ "Close" := Floats [Some 10%Q; Some 11%Q] ]}.

(** One calendar date with two bars. *)
Definition datos_una_fecha : DataFrame :=
  mkDataFrame [0; 900] {[ "Close" := Floats [Some 10%Q; Some 11%Q] ]}.

(** Two calendar dates in a table without a ['Close'] column. *)
Definition datos_sin_close : DataFrame :=
  mkDataFrame [0; 86400] {[ "Open" := Floats [Some 10%Q; Some 11%Q] ]}.

(** Routines that differ from [rutinas_ejemplo] only outside of what the
    script asks for: on an empty series, with other options, or on fewer
    than 100 observations. *)
Definition rutinas_fuera_de_dominio (datos : DataFrame) : Routines := {|
  adfuller xs :=
    match xs with
    | [] => raise (ValueError "empty")
    | _ => ok (Some (-3)%Q, Some 0.01%Q)
    end;
  kpss xs regression nlags :=
    if bool_decide (xs ≠ [] ∧ regression = "c" ∧ nlags = "auto")
    then ok (Some 0.1%Q, Some 0.1%Q)
    else raise (ValueError "unsupported");
  compute_Hc xs kind simplified :=
    if bool_decide (100 ≤ len xs ∧ kind = "price" ∧ simplified = true)
    then ok (Some 0.5%Q, Some 1%Q, [])
    else raise (ValueError "Series length must be greater or equal to 100");
  np_sqrt q := q;
  yf_download _ _ _ := datos
|}.

(** The unit-root test raises on every series. *)
Definition rutinas_adf_falla (datos : DataFrame) : Routines := {|
  adfuller _ := raise (ValueError "Invalid input, x is constant");
  kpss _ _ _ := ok (Some 0.1%Q, Some 0.1%Q);
  compute_Hc _ _ _ := ok (Some 0.5%Q, Some 1%Q, []);
  np_sqrt q := q;
  yf_download _ _ _ := datos
|}.

(** Three calendar dates with one bar each, the first one without a
    price: the first window of two dates has a single valid price, the
    second has two. *)
Definition datos_hueco_inicial : DataFrame :=
  mkDataFrame [0; 86400; 172800] {[ "Close" := Floats [None; Some 10%Q; Some 11%Q] ]}.

(** As [datos_tres_fechas], with other prices on the third date. *)
Definition datos_tres_fechas_bis : DataFrame :=
  mkDataFrame [0; 900; 86400; 87300; 172800; 173700]
    {[ "Close" := Floats [Some 10%Q; Some 11%Q; Some 12%Q; Some 11%Q; None; Some 99%Q] ]}.

(** [kpss] raises an exception that is not a [ValueError]; every other
    routine returns. *)
Definition rutinas_kpss_fpe (datos : DataFrame) : Routines := {|
  adfuller _ := ok (Some (-3)%Q, Some 0.01%Q);
  kpss _ _ _ := raise (FloatingPointError "divide by zero encountered in scalar divide");
  compute_Hc _ _ _ := ok (Some 0.5%Q, Some 1%Q, []);
  np_sqrt q := q;
  yf_download _ _ _ := datos
|}.

(** [kpss] raises [ValueError] on a series that starts with a return of
    one tenth, as the returns of the first window of [datos_tres_fechas] do,
    and returns on every other series. *)
Definition rutinas_kpss_falla_primera (datos : DataFrame) : Routines := {|
  adfuller _ := ok (Some (-3)%Q, Some 0.01%Q);
  kpss xs _ _ :=
    match xs with
    | x :: _ =>
        if Qeq_bool x (1 # 10)
        then raise (ValueError "cannot convert float NaN to integer")
        else ok (Some 0.1%Q, Some 0.1%Q)
    | [] => ok (Some 0.1%Q, Some 0.1%Q)
    end;
  compute_Hc _ _ _ := ok (Some 0.5%Q, Some 1%Q, []);
  np_sqrt q := q;
  yf_download _ _ _ := datos
|}.

(** Libraries whose state is the error mode of numpy ([true] when
    floating-point errors raise).  As in the hurst package, [compute_Hc]
    switches the mode to raising and puts the former mode back only when it
    returns: on a series without variation it divides by zero, raises
    [FloatingPointError] and leaves the mode raising.  In that mode the
    division by zero that [kpss] meets raises too. *)
Definition rutinas_modo_numpy : RutinasEstado bool := {|
  adfuller_st (s : bool) _ := (s, ok (Some (-3)%Q, Some 0.01%Q));
  kpss_st (s : bool) _ _ _ :=
    if s then (s, raise (FloatingPointError "divide by zero encountered in scalar divide"))
    else (s, ok (Some 0.1%Q, Some 0.1%Q));
  compute_Hc_st (s : bool) xs _ _ :=
    if forallb (Qeq_bool 0) xs
    then (true, raise (FloatingPointError "divide by zero encountered in scalar divide"))
    else (s, ok (Some 0.5%Q, Some 1%Q, []));
  np_sqrt_st q := q
|}.

(** One calendar date with 101 one-minute bars at the same price. *)
Definition datos_precio_fijo : DataFrame :=
  mkDataFrame ((fun k => 60 * Z.of_nat k) <$> seq 0 101)
    {[ "Close" := Floats (replicate 101 (Some 10%Q)) ]}.

(** Libraries whose state counts the calls made to them, and whose
    answers do not depend on it. *)
Definition rutinas_contador : RutinasEstado nat := {|
  adfuller_st (s : nat) _ := (Datatypes.S s, ok (Some (-3)%Q, Some 0.01%Q));
  kpss_st (s : nat) _ _ _ := (Datatypes.S s, ok (Some 0.1%Q, Some 0.1%Q));
  compute_Hc_st (s : nat) _ _ _ := (Datatypes.S s, ok (Some 0.5%Q, Some 1%Q, []));
  np_sqrt_st q := q
|}.

(** The table the provider returns when it has no data. *)
Definition datos_vacios : DataFrame := mkDataFrame [] ∅.

(** * Properties *)

(** ** Lists, ranges and slices *)

Lemma length_range n : length (range n) = Z.to_nat n.
Proof. unfold range. by rewrite length_fmap, length_seq. Qed.

Lemma lookup_range n (k : nat) :
  (k < Z.to_nat n)%nat → range n !! k = Some (Z.of_nat k).
Proof.
  intros Hk. unfold range. rewrite list_lookup_fmap.
  by rewrite (proj2 (lookup_seq 0 (Z.to_nat n) k k)).
Qed.

Lemma elem_of_range n i : i ∈ range n ↔ 0 ≤ i < n.
Proof.
  unfold range. rewrite list_elem_of_fmap. split.
  - intros (k & -> & Hk). apply elem_of_seq in Hk. lia.
  - intros Hi. exists (Z.to_nat i). split; [lia|]. apply elem_of_seq. lia.
Qed.

Lemma range_nonpos n : n ≤ 0 → range n = [].
Proof. intros Hn. unfold range. by replace (Z.to_nat n) with 0%nat by lia. Qed.

Lemma py_slice_window {A} (l : list A) (i w : Z) :
  0 ≤ i → 0 ≤ w → i + w ≤ len l →
  py_slice l i (i + w) = take (Z.to_nat w) (drop (Z.to_nat i) l).
Proof.
  intros Hi Hw Hlen. unfold py_slice, slice_bound.
  destruct (Z.ltb_spec i 0); [lia|].
  destruct (Z.ltb_spec (i + w) 0); [lia|].
  do 2 f_equal; lia.
Qed.

Lemma length_window {A} (l : list A) (i w : nat) :
  (i + w ≤ length l)%nat → length (take w (drop i l)) = w.
Proof. intros H. rewrite length_take, length_drop. lia. Qed.

(** ** Distinct sorted dates *)

Lemma elem_of_unique_from seen l x :
  x ∈ unique_from seen l ↔ x ∈ l ∧ x ∉ seen.
Proof.
  revert seen. induction l as [|y l IH]; intros seen; simpl.
  - rewrite elem_of_nil. tauto.
  - case_bool_decide as Hy.
    + rewrite IH, elem_of_cons. split; [tauto|].
      intros [[->|?] ?]; tauto.
    + rewrite elem_of_cons, IH, !elem_of_cons. split.
      * intros [->|[? ?]]; [tauto|]. split; [tauto|]. tauto.
      * intros [[->|Hx] Hs]; [tauto|].
        destruct (decide (x = y)) as [->|Hne]; [tauto|]. right. tauto.
Qed.

Lemma NoDup_unique_from seen l : NoDup (unique_from seen l).
Proof.
  revert seen. induction l as [|y l IH]; intros seen; simpl.
  - constructor.
  - case_bool_decide; [apply IH|].
    constructor; [|apply IH].
    rewrite elem_of_unique_from, elem_of_cons. tauto.
Qed.

Lemma elem_of_unique l x : x ∈ unique l ↔ x ∈ l.
Proof.
  unfold unique. rewrite elem_of_unique_from, elem_of_nil. tauto.
Qed.

Lemma NoDup_unique l : NoDup (unique l).
Proof. apply NoDup_unique_from. Qed.

Lemma sorted_Permutation l : sorted l ≡ₚ l.
Proof. apply merge_sort_Permutation. Qed.

Lemma length_fechas_de data :
  length (fechas_de data) = fechas_distintas data.
Proof.
  unfold fechas_de, fechas_distintas.
  rewrite (Permutation_length (sorted_Permutation _)).
  rewrite <- (size_list_to_set (C := gset Z) (unique _)) by apply NoDup_unique.
  f_equal. apply set_eq. intros x.
  by rewrite !elem_of_list_to_set, elem_of_unique.
Qed.

Lemma NoDup_fechas_de data : NoDup (fechas_de data).
Proof.
  unfold fechas_de. rewrite (sorted_Permutation _). apply NoDup_unique.
Qed.

Lemma elem_of_fechas_de data d :
  d ∈ fechas_de data ↔ ∃ ts, ts ∈ index data ∧ d = date_of ts.
Proof.
  unfold fechas_de. rewrite (sorted_Permutation _), elem_of_unique.
  rewrite list_elem_of_fmap. split; intros (ts & H1 & H2); eauto.
Qed.

(** A sorted list without duplicates is strictly increasing. *)
Lemma StronglySorted_lt_of_le l :
  StronglySorted Z.le l → NoDup l → StronglySorted Z.lt l.
Proof.
  induction 1 as [|x l Hl IH Hx]; intros Hnd; [constructor|].
  apply NoDup_cons in Hnd as [Hnotin Hnd].
  constructor; [by apply IH|].
  rewrite Forall_forall in Hx |- *. intros y Hy.
  specialize (Hx y Hy).
  assert (x ≠ y) by (intros ->; done). lia.
Qed.

Lemma fechas_de_increasing data : StronglySorted Z.lt (fechas_de data).
Proof.
  apply StronglySorted_lt_of_le; [|apply NoDup_fechas_de].
  unfold fechas_de, sorted. apply StronglySorted_merge_sort; apply _.
Qed.

(** ** The loop and its body *)

Lemma getitem_Some df key c : columns df !! key = Some c → getitem df key = ok c.
Proof. unfold getitem. by intros ->. Qed.

Lemma getitem_None df key :
  columns df !! key = None → getitem df key = raise (KeyError key).
Proof. unfold getitem. by intros ->. Qed.

Lemma getitem_mask_frame mask df key :
  getitem (mask_frame mask df) key = bind (getitem df key) (fun c => ok (mask_column mask c)).
Proof.
  unfold getitem, mask_frame; simpl. rewrite lookup_fmap.
  by destruct (columns df !! key).
Qed.

Lemma length_pct_change_from prev xs :
  length (dropna (pct_change_from prev xs)) = length xs.
Proof.
  revert prev. induction xs as [|x xs IH]; intros prev; [done|].
  simpl. unfold dropna in IH. by rewrite IH.
Qed.

(** The return series is one shorter than the series of prices. *)
Lemma length_retornos precios :
  length (dropna (pct_change precios)) = (length precios - 1)%nat.
Proof.
  destruct precios as [|x xs]; [done|].
  unfold pct_change, dropna. simpl. fold (dropna (pct_change_from x xs)).
  rewrite length_pct_change_from. lia.
Qed.

Lemma precios_validos_nil ds close : precios_validos ds close [] = [].
Proof.
  unfold precios_validos, isin.
  assert (mask_list ((λ d : Z, bool_decide (d ∈ [])) <$> ds) close = []) as ->; [|done].
  revert close. induction ds as [|d ds IH]; intros [|c close]; simpl; auto.
Qed.

(** The filter keeps, in order, the ['Close'] values of the rows whose date
    is in the window and whose value is a number strictly above zero. *)
Lemma precios_validos_spec ds close ventana :
  precios_validos ds close ventana =
  omap (fun dc : Z * float =>
          match dc.2 with
          | Some q => if bool_decide (dc.1 ∈ ventana) && Qltb 0 q then Some q else None
          | None => None
          end) (zip ds close).
Proof.
  unfold precios_validos, isin, dropna.
  revert close. induction ds as [|d ds IH]; intros [|c close]; simpl; try done.
  rewrite <- IH. destruct c as [q|]; simpl.
  - case_bool_decide; simpl; [|done]. by destruct (Qltb 0 q).
  - by case_bool_decide.
Qed.

Lemma Qltb_lt x y : Qltb x y = true ↔ (x < y)%Q.
Proof.
  unfold Qltb. rewrite Qlt_alt. destruct (x ?= y)%Q; split; congruence.
Qed.

Lemma precios_validos_pos ds close ventana q :
  q ∈ precios_validos ds close ventana → (0 < q)%Q.
Proof.
  rewrite precios_validos_spec, list_elem_of_omap.
  intros ([d [c|]] & _ & Hq); simpl in Hq; [|done].
  destruct (bool_decide (d ∈ ventana)); simpl in Hq; [|done].
  destruct (Qltb 0 c) eqn:Hc; [|done].
  injection Hq as <-. by apply Qltb_lt.
Qed.

Section Ventana.
Context `{R : Routines}.

Lemma evaluar_ventana_eq data ds close fechas w i :
  columns data !! "date" = Some (Dates ds) →
  columns data !! "Close" = Some (Floats close) →
  evaluar_ventana data fechas w i =
  evaluar_precios (py_slice fechas i (i + w))
    (precios_validos ds close (py_slice fechas i (i + w))).
Proof.
  intros Hd Hc. unfold evaluar_ventana.
  rewrite (getitem_Some _ _ _ Hd). simpl.
  rewrite !getitem_mask_frame, (getitem_Some _ _ _ Hc). simpl.
  reflexivity.
Qed.

(** The body reads its frame only through the columns ['date'] and
    ['Close']. *)
Lemma evaluar_ventana_ext data1 data2 fechas w i :
  columns data1 !! "date" = columns data2 !! "date" →
  columns data1 !! "Close" = columns data2 !! "Close" →
  evaluar_ventana data1 fechas w i = evaluar_ventana data2 fechas w i.
Proof.
  intros Hd Hc. unfold evaluar_ventana, getitem at 1 4. rewrite Hd.
  destruct (columns data2 !! "date") as [date|]; simpl; [|done].
  rewrite !getitem_mask_frame. unfold getitem. rewrite Hc.
  destruct (columns data2 !! "Close") as [[xs|ds]|]; simpl; done.
Qed.
End Ventana.

Lemma for_each_inv body idx acc res :
  for_each body idx acc = inr res →
  ∃ outs, Forall2 (fun i o => body i = inr o) idx outs ∧ res = acc ++ omap id outs.
Proof.
  revert acc. induction idx as [|i idx IH]; intros acc; simpl.
  - intros [= <-]. exists []. split; [constructor|]. by rewrite app_nil_r.
  - destruct (body i) as [e|[r|]] eqn:Hb; [done| |].
    + intros (outs & HF & ->)%IH. exists (Some r :: outs).
      split; [by constructor|]. simpl. by rewrite <- app_assoc.
    + intros (outs & HF & ->)%IH. exists (None :: outs).
      split; [by constructor|]. done.
Qed.

Lemma for_each_ok body idx acc outs :
  Forall2 (fun i o => body i = inr o) idx outs →
  for_each body idx acc = ok (acc ++ omap id outs).
Proof.
  intros HF. revert acc. induction HF as [|i o idx outs Hb HF IH]; intros acc; simpl.
  - by rewrite app_nil_r.
  - rewrite Hb. destruct o as [r|]; rewrite IH; simpl; [|done].
    by rewrite <- app_assoc.
Qed.

Lemma length_filter_lt {A} (P : A → Prop) `{!∀ x, Decision (P x)} (l : list A) x :
  x ∈ l → ¬ P x → (length (filter P l) < length l)%nat.
Proof.
  induction l as [|y l IH]; [by rewrite elem_of_nil|].
  rewrite elem_of_cons. intros [<-|Hin] HnP.
  - rewrite filter_cons_False by done. simpl.
    pose proof (length_filter P l). lia.
  - specialize (IH Hin HnP). rewrite filter_cons.
    destruct (decide (P y)); simpl; lia.
Qed.

Lemma filas_pd_DataFrame rows : filas (pd_DataFrame rows) = length rows.
Proof.
  destruct rows as [|r rows]; [done|].
  unfold filas, pd_DataFrame, index. rewrite length_range. unfold len. lia.
Qed.

Section Analisis.
Context `{R : Routines}.

Lemma analizar_estacionariedad_eq data w :
  analizar_estacionariedad data w =
  (con_fecha data,
   resultados ←!
     for_each (evaluar_ventana (con_fecha data) (fechas_de data) w)
       (range (len (fechas_de data) - w + 1)) [];
   ok (pd_DataFrame resultados)).
Proof.
  unfold analizar_estacionariedad, con_fecha, getitem, setitem. simpl.
  by rewrite lookup_insert_eq.
Qed.

Lemma evaluar_precios_skip ventana precios o :
  evaluar_precios ventana precios = inr o →
  (o = None ↔ len precios < 2).
Proof.
  unfold evaluar_precios. destruct (Z.ltb_spec (len precios) 2) as [Hlt|Hge].
  - intros [= <-]. tauto.
  - destruct (pruebas_estacionariedad _); simpl; [done|].
    destruct (calcular_hurst _); simpl; [done|].
    destruct (first_item _); simpl; [done|].
    destruct (last_item _); simpl; [done|].
    intros [= <-]. split; [done|lia].
Qed.

Lemma length_emitidas (ventana : Z → list Z) (precios : Z → list Q) idx outs :
  Forall2 (fun i o => evaluar_precios (ventana i) (precios i) = inr o) idx outs →
  length (omap id outs) = length (filter (fun i => 2 ≤ len (precios i)) idx).
Proof.
  induction 1 as [|i o idx outs Hb HF IH]; [done|].
  apply evaluar_precios_skip in Hb. rewrite filter_cons.
  destruct o as [r|].
  - change (omap id (Some r :: outs)) with (r :: omap id outs).
    rewrite decide_True; [cbn [length]; by rewrite IH|].
    destruct (Z.le_gt_cases 2 (len (precios i))); [done|].
    assert (Some r = None) by (apply Hb; lia). done.
  - change (omap id (None :: outs)) with (omap id outs).
    rewrite decide_False; [done|].
    assert (len (precios i) < 2) by by apply Hb. lia.
Qed.
End Analisis.

(** ** Skipped windows *)

(** C2: the loop body keeps, of the ['Close'] values of its window, those
    that are numbers strictly above zero; a window with fewer than two of
    them yields no row and no error; hence a table that is returned has one
    row per window with at least two valid prices, and strictly fewer rows
    than windows as soon as one window has fewer than two. *)
Theorem analizar_estacionariedad_omite `{R : Routines} (data : DataFrame)
    (close : list float) (w : Z) :
  columns data !! "Close" = Some (Floats close) →
  let ds := date_of <$> index data in
  let ventana i := py_slice (fechas_de data) i (i + w) in
  let precios i := precios_validos ds close (ventana i) in
  let idx := range (len (fechas_de data) - w + 1) in
  (∀ i, precios i =
        omap (fun dc : Z * float =>
                match dc.2 with
                | Some q =>
                    if bool_decide (dc.1 ∈ ventana i) && Qltb 0 q then Some q else None
                | None => None
                end) (zip ds close))
  ∧ (∀ i q, q ∈ precios i → (0 < q)%Q)
  ∧ (∀ i, len (precios i) < 2 →
       evaluar_ventana (con_fecha data) (fechas_de data) w i = ok None)
  ∧ (∀ T, snd (analizar_estacionariedad data w) = inr T →
       filas T = length (filter (fun i => 2 ≤ len (precios i)) idx)
       ∧ ((∃ i, i ∈ idx ∧ len (precios i) < 2) → (filas T < length idx)%nat)).
Proof.
  intros Hclose ds ventana precios idx.
  assert (Hbody : ∀ i, evaluar_ventana (con_fecha data) (fechas_de data) w i =
                       evaluar_precios (ventana i) (precios i)).
  { intros i. apply evaluar_ventana_eq; unfold con_fecha, setitem; simpl.
    - by rewrite lookup_insert_eq.
    - by rewrite lookup_insert_ne. }
  split; [|split; [|split]].
  - intros i. apply precios_validos_spec.
  - intros i q. apply precios_validos_pos.
  - intros i Hi. rewrite Hbody. unfold evaluar_precios.
    by destruct (Z.ltb_spec (len (precios i)) 2); [|lia].
  - intros T. rewrite analizar_estacionariedad_eq. simpl. fold idx.
    destruct (for_each _ idx []) as [e|rows] eqn:Hloop; simpl; [done|].
    intros [= <-]. rewrite filas_pd_DataFrame.
    apply for_each_inv in Hloop as (outs & HF & ->). simpl.
    assert (Hlen : length (omap id outs)
                   = length (filter (fun i => 2 ≤ len (precios i)) idx)).
    { apply (length_emitidas ventana precios).
      eapply Forall2_impl; [exact HF|]. intros i o Hio. by rewrite <- Hbody. }
    split; [done|].
    intros (i & Hin & Hi). rewrite Hlen.
    apply (length_filter_lt _ _ i); [done|lia].
Qed.

Lemma analizar_estacionariedad_omite_witness :
  columns datos_con_huecos !! "Close"
    = Some (Floats [Some 10%Q; Some 11%Q; None; Some (-1)%Q])
  ∧ ∃ T, snd (analizar_estacionariedad (R := rutinas_ejemplo datos_con_huecos)
                datos_con_huecos 2) = inr T
         ∧ (filas T < length (range (len (fechas_de datos_con_huecos) - 2 + 1)))%nat.
Proof.
  split; [reflexivity|].
  eexists. split; [vm_compute; reflexivity|].
  apply (analizar_estacionariedad_omite (R := rutinas_ejemplo datos_con_huecos)
           datos_con_huecos [Some 10%Q; Some 11%Q; None; Some (-1)%Q] 2 eq_refl).
  - vm_compute. reflexivity.
  - exists 1. split; [vm_compute; apply list_elem_of_further, list_elem_of_here|].
    vm_compute. reflexivity.
Defined.

(** ** The summary percentages *)



Lemma count_true_fmap {A} (p : A → bool) (l : list A) :
  count_true (p <$> l) = length (filter (fun x => p x = true) l).
Proof.
  unfold count_true. induction l as [|x l IH]; [done|].
  rewrite fmap_cons, !filter_cons.
  destruct (decide (p x = true)) as [Hp|Hp]; simpl; by rewrite IH.
Qed.

Lemma and_series_fmap {A} (p q : A → bool) (l : list A) :
  and_series (p <$> l) (q <$> l) = (fun x => p x && q x) <$> l.
Proof.
  unfold and_series. induction l as [|x l IH]; [done|].
  simpl. f_equal. apply IH.
Qed.

Lemma mean_bool_fmap (p : WindowResult → bool) (rows : list WindowResult) :
  rows ≠ [] → times_100 (mean_bool (p <$> rows)) = Some (porcentaje p rows).
Proof.
  intros Hne. destruct rows as [|r rows]; [done|].
  unfold mean_bool, porcentaje, times_100, len.
  rewrite fmap_cons. simpl fmap.
  change (p r :: (p <$> rows)) with (p <$> r :: rows).
  by rewrite count_true_fmap, length_fmap.
Qed.

Lemma empty_pd_DataFrame rows : empty (pd_DataFrame rows) = bool_decide (rows = []).
Proof.
  destruct rows as [|r rows]; [done|].
  unfold empty, pd_DataFrame. simpl index. simpl columns.
  rewrite (bool_decide_eq_false_2 (r :: rows = [])) by done.
  apply orb_false_iff. split; apply bool_decide_eq_false_2.
  - intros Hr. apply (f_equal length) in Hr. rewrite length_range in Hr.
    unfold len in Hr. simpl in Hr. lia.
  - rewrite map_size_empty_iff. apply insert_non_empty.
Qed.

Lemma getitem_pd_DataFrame_ADF r rows :
  getitem (pd_DataFrame (r :: rows)) "ADF p-value"
  = ok (Floats (ADF_p_value <$> r :: rows)).
Proof.
  apply getitem_Some. unfold pd_DataFrame. simpl columns.
  rewrite !lookup_insert_ne by done. by rewrite lookup_insert_eq.
Qed.

Lemma getitem_pd_DataFrame_KPSS r rows :
  getitem (pd_DataFrame (r :: rows)) "KPSS p-value"
  = ok (Floats (KPSS_p_value <$> r :: rows)).
Proof.
  apply getitem_Some. unfold pd_DataFrame. simpl columns.
  rewrite !lookup_insert_ne by done. by rewrite lookup_insert_eq.
Qed.

Lemma getitem_pd_DataFrame_Hurst r rows :
  getitem (pd_DataFrame (r :: rows)) "Hurst Exponent"
  = ok (Floats (Hurst_Exponent <$> r :: rows)).
Proof.
  apply getitem_Some. unfold pd_DataFrame. simpl columns.
  rewrite !lookup_insert_ne by done. by rewrite lookup_insert_eq.
Qed.

Example diez_filas_sesenta :
  (porcentaje adf_estacionaria diez_filas == 60)%Q
  ∧ format_2f (Some (porcentaje adf_estacionaria diez_filas)) = "60.00"
  ∧ (porcentaje kpss_estacionaria diez_filas == 0)%Q
  ∧ format_2f (Some (porcentaje kpss_estacionaria diez_filas)) = "0.00".
Proof. repeat split; vm_compute; reflexivity. Qed.

(** ** The empty table *)

(** C5: on an empty table [generar_reporte] returns the fixed message; the
    percentages are not computed, and nothing is raised. *)
Theorem generar_reporte_vacio (df : DataFrame) :
  empty df = true → generar_reporte df = ok mensaje_sin_informacion.
Proof. unfold generar_reporte. by intros ->. Qed.

Lemma generar_reporte_vacio_witness :
  empty (pd_DataFrame []) = true
  ∧ generar_reporte (pd_DataFrame []) = ok mensaje_sin_informacion.
Proof.
  split; [reflexivity|]. apply (generar_reporte_vacio (pd_DataFrame [])). reflexivity.
Defined.

(** ** Recoverable failures *)

Lemma first_item_ok {A} (l : list A) : l ≠ [] → ∃ x, first_item l = ok x.
Proof. destruct l as [|x l]; [done|]. by exists x. Qed.

Lemma last_item_ok {A} (l : list A) : l ≠ [] → ∃ x, last_item l = ok x.
Proof.
  intros Hne. unfold last_item.
  destruct (last l) as [x|] eqn:Hl; [by exists x|].
  by apply last_None in Hl.
Qed.

(** Only [ValueError] is caught around [kpss]: an exception of another class
    leaves [pruebas_estacionariedad], and so does any exception of
    [adfuller], which is called outside the [try] block. *)
Lemma pruebas_estacionariedad_propaga `{R : Routines} (retornos : list Q) :
  (∀ e, adfuller retornos = inl e → pruebas_estacionariedad retornos = raise e)
  ∧ (∀ a e, adfuller retornos = inr a →
       kpss retornos "c" "auto" = inl e →
       (∀ msg, e ≠ ValueError msg) →
       pruebas_estacionariedad retornos = raise e).
Proof.
  unfold pruebas_estacionariedad. split.
  - by intros e ->.
  - intros a e -> -> Hne. simpl. destruct e; try done. by destruct (Hne msg).
Qed.

(** C7: [calcular_hurst] returns null below 100 observations, returns null
    when [compute_Hc] raises [FloatingPointError], and otherwise returns the
    exponent [compute_Hc] gives for [kind="price"] and [simplified=True]; a
    series of exactly 100 observations is estimated. *)
Theorem calcular_hurst_casos `{R : Routines} (data : list Q) :
  (len data < 100 → calcular_hurst data = ok None)
  ∧ (100 ≤ len data →
       (∀ msg, compute_Hc data "price" true = inl (FloatingPointError msg) →
               calcular_hurst data = ok None)
       ∧ (∀ H c rs, compute_Hc data "price" true = inr (H, c, rs) →
                    calcular_hurst data = ok H)).
Proof.
  unfold calcular_hurst. split.
  - intros Hlt. by destruct (Z.ltb_spec (len data) 100); [|lia].
  - intros Hge. destruct (Z.ltb_spec (len data) 100); [lia|].
    split.
    + by intros msg ->.
    + by intros Hx c rs ->.
Qed.

Lemma calcular_hurst_casos_witness :
  100 ≤ len (replicate 100 0.001%Q)
  ∧ calcular_hurst (R := rutinas_ejemplo datos_tres_fechas) (replicate 100 0.001%Q)
    = ok (Some 0.5%Q)
  ∧ calcular_hurst (R := rutinas_ejemplo datos_tres_fechas) (replicate 50 0.001%Q)
    = ok None.
Proof.
  assert (Hlen : 100 ≤ len (replicate 100 0.001%Q)) by (vm_compute; discriminate).
  split; [exact Hlen|]. split.
  - apply (proj2 (proj2 (calcular_hurst_casos (R := rutinas_ejemplo datos_tres_fechas)
                           (replicate 100 0.001%Q)) Hlen) (Some 0.5%Q) (Some 1%Q) []).
    reflexivity.
  - apply (proj1 (calcular_hurst_casos (R := rutinas_ejemplo datos_tres_fechas)
                    (replicate 50 0.001%Q))).
    vm_compute. reflexivity.
Defined.

(** ** The effect on the input frame *)

Lemma for_each_ext body1 body2 idx acc :
  (∀ i, body1 i = body2 i) → for_each body1 idx acc = for_each body2 idx acc.
Proof.
  intros Hext. revert acc. induction idx as [|i idx IH]; intros acc; simpl; [done|].
  rewrite Hext. destruct (body2 i) as [e|[r|]]; auto.
Qed.

Lemma con_fecha_idem data : con_fecha (con_fecha data) = con_fecha data.
Proof.
  unfold con_fecha, setitem. simpl. by rewrite insert_insert_eq.
Qed.

Lemma analizar_estacionariedad_sin_ventanas `{R : Routines} data w :
  Z.of_nat (fechas_distintas data) < w →
  analizar_estacionariedad data w = (con_fecha data, ok (pd_DataFrame [])).
Proof.
  intros Hlt. rewrite analizar_estacionariedad_eq.
  unfold len. rewrite length_fechas_de, range_nonpos by lia. done.
Qed.

(** The frame is not left unchanged: after the call it has a column
    ['date'] that the input did not have. *)
Lemma analizar_estacionariedad_muta :
  ¬ (∀ (R : Routines) (data : DataFrame) (w : Z),
       fst (analizar_estacionariedad data w) = data).
Proof.
  intros Hpure.
  specialize (Hpure (rutinas_ejemplo datos_tres_fechas) datos_tres_fechas 2).
  apply (f_equal (fun df => columns df !! "date")) in Hpure.
  vm_compute in Hpure. discriminate.
Qed.

(** ** Volatility *)

Lemma Series_std_uno `{R : Routines} (xs : list Q) :
  length xs = 1%nat → Series_std ddof_default xs = None.
Proof. unfold Series_std. by intros ->. Qed.

(** C9, as the code has it: the volatility of every appended row is
    [retornos.std()] with pandas' default [ddof = 1], the same for all
    windows; for a window with exactly two valid prices the return series has
    one element and its standard deviation is null; the row with that null
    is appended when [pruebas_estacionariedad] returns on the one-element
    series, and an exception of [pruebas_estacionariedad] ends the run
    instead. *)
Theorem evaluar_ventana_volatilidad `{R : Routines} (data : DataFrame)
    (close : list float) (w i : Z) :
  columns data !! "Close" = Some (Floats close) →
  let precios :=
    precios_validos (date_of <$> index data) close (py_slice (fechas_de data) i (i + w)) in
  let retornos := dropna (pct_change precios) in
  let body := evaluar_ventana (con_fecha data) (fechas_de data) w in
  ddof_default = 1%nat
  ∧ (∀ r, body i = ok (Some r) → Volatilidad r = Series_std ddof_default retornos)
  ∧ (len precios = 2 →
       length retornos = 1%nat
       ∧ Series_std ddof_default retornos = None
       ∧ (∀ est, pruebas_estacionariedad retornos = inr est →
            ∃ r, body i = ok (Some r) ∧ Volatilidad r = None)
       ∧ (∀ e rest acc, pruebas_estacionariedad retornos = inl e →
            for_each body (i :: rest) acc = raise e)).
Proof.
  intros Hclose precios retornos body.
  assert (Hbody : body i = evaluar_precios (py_slice (fechas_de data) i (i + w)) precios).
  { apply evaluar_ventana_eq; unfold con_fecha, setitem; simpl.
    - by rewrite lookup_insert_eq.
    - by rewrite lookup_insert_ne. }
  split; [done|]. split.
  - intros r. rewrite Hbody. unfold evaluar_precios.
    destruct (len precios <? 2); [done|]. fold retornos.
    destruct (pruebas_estacionariedad retornos); simpl; [done|].
    destruct (calcular_hurst retornos); simpl; [done|].
    destruct (first_item _); simpl; [done|].
    destruct (last_item _); simpl; [done|].
    by intros [= <-].
  - intros Hdos.
    assert (Hlen : length retornos = 1%nat).
    { unfold retornos. rewrite length_retornos. unfold len in Hdos. lia. }
    assert (Hv : py_slice (fechas_de data) i (i + w) ≠ []).
    { intros Hnil. unfold precios in Hdos. rewrite Hnil, precios_validos_nil in Hdos.
      done. }
    split; [done|]. split; [by apply Series_std_uno|]. split.
    + intros est Hest.
      destruct (first_item_ok _ Hv) as [inicio Hi].
      destruct (last_item_ok _ Hv) as [final Hf].
      exists (mkWindowResult inicio final (adf_p_value (ADF est))
                (get_p_value (KPSS est)) None None).
      split; [|done]. rewrite Hbody. unfold evaluar_precios.
      rewrite Hdos. simpl. fold retornos. rewrite Hest. simpl.
      unfold calcular_hurst, len. rewrite Hlen. simpl.
      rewrite Hi. simpl. rewrite Hf. simpl.
      by rewrite (Series_std_uno retornos Hlen).
    + intros e rest acc He. simpl. rewrite Hbody. unfold evaluar_precios.
      rewrite Hdos. simpl. fold retornos. by rewrite He.
Qed.

Lemma evaluar_ventana_volatilidad_witness :
  columns datos_dos_precios !! "Close" = Some (Floats [Some 10%Q; Some 11%Q])
  ∧ ∀ r, evaluar_ventana (R := rutinas_ejemplo datos_dos_precios)
           (con_fecha datos_dos_precios) (fechas_de datos_dos_precios) 2 0 = ok (Some r) →
         Volatilidad r
         = Series_std (R := rutinas_ejemplo datos_dos_precios) ddof_default
             (dropna (pct_change
                (precios_validos (date_of <$> index datos_dos_precios)
                   [Some 10%Q; Some 11%Q]
                   (py_slice (fechas_de datos_dos_precios) 0 (0 + 2))))).
Proof.
  split; [reflexivity|].
  apply (evaluar_ventana_volatilidad (R := rutinas_ejemplo datos_dos_precios)
           datos_dos_precios [Some 10%Q; Some 11%Q] 2 0 eq_refl).
Defined.

(** The row is not always recorded: under routines in which the unit-root
    test refuses a one-element sample, the window with exactly two valid
    prices ends the run with the exception of the test. *)
Lemma evaluar_ventana_volatilidad_contraejemplo :
  ¬ (∀ (R : Routines) (data : DataFrame) (close : list float) (w i : Z),
       columns data !! "Close" = Some (Floats close) →
       len (precios_validos (date_of <$> index data) close
              (py_slice (fechas_de data) i (i + w))) = 2 →
       ∃ r, evaluar_ventana (con_fecha data) (fechas_de data) w i = ok (Some r)
            ∧ Volatilidad r = None).
Proof.
  intros Hclaim.
  destruct (Hclaim (rutinas_muestra_corta datos_dos_precios) datos_dos_precios
              [Some 10%Q; Some 11%Q] 2 0 eq_refl eq_refl) as (r & Hr & _).
  vm_compute in Hr. discriminate.
Qed.

Example analizar_estacionariedad_dos_precios :
  snd (analizar_estacionariedad (R := rutinas_muestra_corta datos_dos_precios)
         datos_dos_precios 2)
  = raise (ValueError "sample size is too short to use selected regression component").
Proof. vm_compute. reflexivity. Qed.

(** ** The page on an empty table *)

(** C10: when the downloaded table is not empty and spans a single calendar
    date, the analysis with two-day windows returns the empty table; the page
    shows that table, the report with the fixed message and the heading of
    the chart, and [graficar], called on the table without columns, ends the
    run with [KeyError] on ['Inicio Ventana'] before anything is plotted. *)
Theorem main_tabla_vacia `{R : Routines} :
  let datos := descargar_datos_oro "15m" "5d" in
  empty datos = false →
  fechas_distintas datos = 1%nat →
  snd (analizar_estacionariedad datos 2) = ok (pd_DataFrame [])
  ∧ empty (pd_DataFrame []) = true
  ∧ graficar (pd_DataFrame []) = ([], raise (KeyError "Inicio Ventana"))
  ∧ fin main = raise (KeyError "Inicio Ventana")
  ∧ pagina main =
      [st_title "Análisis de Estacionariedad del Oro";
       st_write "Este análisis evalúa la probabilidad de que el oro se comporte de forma estacionaria en el próximo día.";
       st_write "### Descargando datos...";
       st_success "Datos descargados exitosamente.";
       st_write_frame (head datos);
       st_write "### Analizando datos...";
       st_write_frame (pd_DataFrame []);
       st_write mensaje_sin_informacion;
       st_write "### Visualización de resultados"].
Proof.
  intros datos Hne Hd.
  assert (Hrun : analizar_estacionariedad datos 2 = (con_fecha datos, ok (pd_DataFrame []))).
  { apply analizar_estacionariedad_sin_ventanas. lia. }
  split; [by rewrite Hrun|]. split; [done|]. split; [done|].
  unfold main. fold datos. rewrite Hne, Hrun. simpl. done.
Qed.

Lemma main_tabla_vacia_witness :
  empty (descargar_datos_oro (R := rutinas_ejemplo datos_una_fecha) "15m" "5d") = false
  ∧ fechas_distintas (descargar_datos_oro (R := rutinas_ejemplo datos_una_fecha) "15m" "5d")
    = 1%nat
  ∧ fin (main (R := rutinas_ejemplo datos_una_fecha)) = raise (KeyError "Inicio Ventana").
Proof.
  split; [reflexivity|]. split; [reflexivity|].
  apply (main_tabla_vacia (R := rutinas_ejemplo datos_una_fecha)); reflexivity.
Defined.

(** * Further properties of the analysis *)

(** ** What a row records *)

Lemma StronglySorted_lt_lookup (l : list Z) (j j' : nat) a b :
  StronglySorted Z.lt l → (j < j')%nat →
  l !! j = Some a → l !! j' = Some b → a < b.
Proof.
  intros Hs. revert j j'. induction Hs as [|x l Hs IH Hx]; intros j j' Hlt Ha Hb.
  - by rewrite lookup_nil in Ha.
  - destruct j' as [|j']; [lia|]. destruct j as [|j]; simpl in *.
    + injection Ha as <-. rewrite Forall_forall in Hx. apply Hx.
      by eapply list_elem_of_lookup_2.
    + apply (IH j j'); [lia|done..].
Qed.

Lemma first_item_window {A} (l : list A) (i w : Z) x :
  0 ≤ i → 1 ≤ w → i + w ≤ len l →
  first_item (py_slice l i (i + w)) = ok x → l !! Z.to_nat i = Some x.
Proof.
  intros Hi Hw Hlen. rewrite py_slice_window by lia.
  unfold first_item.
  destruct (take (Z.to_nat w) (drop (Z.to_nat i) l)) as [|y t] eqn:Ht; [done|].
  intros [= <-].
  assert (Hh : take (Z.to_nat w) (drop (Z.to_nat i) l) !! 0%nat = Some y) by by rewrite Ht.
  rewrite lookup_take_lt, lookup_drop in Hh by lia.
  by rewrite Nat.add_0_r in Hh.
Qed.

Lemma last_item_window {A} (l : list A) (i w : Z) x :
  0 ≤ i → 1 ≤ w → i + w ≤ len l →
  last_item (py_slice l i (i + w)) = ok x → l !! Z.to_nat (i + w - 1) = Some x.
Proof.
  intros Hi Hw Hlen. rewrite py_slice_window by lia.
  unfold last_item, len in *. rewrite last_lookup.
  rewrite length_window by lia.
  destruct (take _ _ !! _) as [y|] eqn:Hl; [|done]. intros [= <-].
  rewrite lookup_take_lt, lookup_drop in Hl by lia.
  rewrite <- Hl. f_equal. lia.
Qed.

Section Filas.
Context `{R : Routines}.

(** A row comes from a frame with a float ['Close'] column, and its two
    dates are the first and the last date of the window. *)
Lemma evaluar_ventana_fila data fechas w i r :
  evaluar_ventana data fechas w i = ok (Some r) →
  first_item (py_slice fechas i (i + w)) = ok (Inicio_Ventana r)
  ∧ last_item (py_slice fechas i (i + w)) = ok (Fin_Ventana r).
Proof.
  unfold evaluar_ventana.
  destruct (getitem data "date") as [|date]; simpl; [done|].
  destruct (getitem (mask_frame _ data) "Close") as [|close]; simpl; [done|].
  destruct (col_gt close 0) as [|positivos]; simpl; [done|].
  destruct (len _ <? 2); [done|].
  destruct (pruebas_estacionariedad _) as [|est]; simpl; [done|].
  destruct (calcular_hurst _) as [|h]; simpl; [done|].
  destruct (first_item _) as [|inicio]; simpl; [done|].
  destruct (last_item _) as [|final]; simpl; [done|].
  by intros [= <-].
Qed.

Lemma analizar_estacionariedad_inv data w T :
  snd (analizar_estacionariedad data w) = inr T →
  ∃ outs,
    Forall2 (fun i o => evaluar_ventana (con_fecha data) (fechas_de data) w i = inr o)
      (range (len (fechas_de data) - w + 1)) outs
    ∧ T = pd_DataFrame (omap id outs).
Proof.
  rewrite analizar_estacionariedad_eq. simpl.
  destruct (for_each _ _ []) as [|rows] eqn:Hloop; simpl; [done|].
  intros [= <-]. apply for_each_inv in Hloop as (outs & HF & ->).
  by exists outs.
Qed.
End Filas.

(** The rows appended for the start indices [k0, k0 + 1, ...] read their
    value [f] at increasing positions of a strictly increasing list. *)
Lemma emitidas_crecientes (f : WindowResult → Z) (l : list Z) (c : nat)
    (body : Z → Result (option WindowResult)) (N k0 : nat) outs :
  StronglySorted Z.lt l →
  (∀ (k : nat) r, (k0 ≤ k < k0 + N)%nat → body (Z.of_nat k) = ok (Some r) →
     l !! (k + c)%nat = Some (f r)) →
  Forall2 (fun i o => body i = inr o) (Z.of_nat <$> seq k0 N) outs →
  StronglySorted Z.lt (f <$> omap id outs)
  ∧ Forall (fun x => ∃ j, (k0 + c ≤ j)%nat ∧ l !! j = Some x) (f <$> omap id outs).
Proof.
  intros Hs. revert k0 outs. induction N as [|N IH]; intros k0 outs Hpos HF.
  - inversion HF; subst. split; constructor.
  - simpl in HF. inversion HF as [|i o idx outs' Hb HF' Hi Ho]; subst.
    destruct (IH (S k0) outs') as [IHs IHf]; [|done|].
    { intros k r Hk. apply Hpos. lia. }
    destruct o as [r|].
    + change (omap id (Some r :: outs')) with (r :: omap id outs').
      rewrite fmap_cons.
      assert (Hr : l !! (k0 + c)%nat = Some (f r)) by (apply Hpos; [lia|done]).
      split.
      * constructor; [done|]. rewrite Forall_forall in IHf |- *.
        intros x (j & Hj & Hx)%IHf.
        apply (StronglySorted_lt_lookup l (k0 + c) j); [done|lia|done..].
      * constructor; [by exists (k0 + c)%nat|].
        eapply Forall_impl; [exact IHf|]. intros x (j & Hj & Hx). exists j. split; [lia|done].
    + change (omap id (None :: outs')) with (omap id outs'). split; [done|].
      eapply Forall_impl; [exact IHf|]. intros x (j & Hj & Hx). exists j. split; [lia|done].
Qed.

Lemma emitidas_Forall (P : WindowResult → Prop)
    (body : Z → Result (option WindowResult)) idx outs :
  (∀ i r, i ∈ idx → body i = ok (Some r) → P r) →
  Forall2 (fun i o => body i = inr o) idx outs →
  Forall P (omap id outs).
Proof.
  intros HP HF. induction HF as [|i o idx outs Hb HF IH]; [constructor|].
  assert (IH' : Forall P (omap id outs)).
  { apply IH. intros j r Hj. apply HP. by right. }
  destruct o as [r|]; [|exact IH'].
  change (omap id (Some r :: outs)) with (r :: omap id outs).
  constructor; [|exact IH']. apply (HP i); [by left|done].
Qed.

(** X1: in a table returned for a window size [w >= 1] the rows are in
    window order: the start dates are strictly increasing, so are the end
    dates, and the two dates of a row are [w - 1] positions apart in the list
    of distinct dates, hence the start is not after the end. *)
Theorem analizar_estacionariedad_ordenada `{R : Routines} (data : DataFrame) (w : Z)
    (T : DataFrame) :
  1 ≤ w →
  snd (analizar_estacionariedad data w) = inr T →
  ∃ rows,
    T = pd_DataFrame rows
    ∧ StronglySorted Z.lt (Inicio_Ventana <$> rows)
    ∧ StronglySorted Z.lt (Fin_Ventana <$> rows)
    ∧ Forall (fun r =>
        Inicio_Ventana r ≤ Fin_Ventana r
        ∧ ∃ k : nat, fechas_de data !! k = Some (Inicio_Ventana r)
                     ∧ fechas_de data !! (k + Z.to_nat (w - 1))%nat = Some (Fin_Ventana r))
        rows.
Proof.
  intros Hw (outs & HF & ->)%analizar_estacionariedad_inv.
  exists (omap id outs). split; [done|].
  set (l := fechas_de data) in *.
  set (body := evaluar_ventana (con_fecha data) l w) in *.
  set (N := Z.to_nat (len l - w + 1)).
  assert (Hsorted : StronglySorted Z.lt l) by apply fechas_de_increasing.
  assert (Hini : ∀ (k : nat) r, (0 ≤ k < 0 + N)%nat → body (Z.of_nat k) = ok (Some r) →
                   l !! (k + 0)%nat = Some (Inicio_Ventana r)).
  { intros k r Hk [Hf _]%evaluar_ventana_fila.
    apply first_item_window in Hf; [|lia..]. by rewrite Nat2Z.id, <- plus_n_O in *. }
  assert (Hfin : ∀ (k : nat) r, (0 ≤ k < 0 + N)%nat → body (Z.of_nat k) = ok (Some r) →
                   l !! (k + Z.to_nat (w - 1))%nat = Some (Fin_Ventana r)).
  { intros k r Hk [_ Hl]%evaluar_ventana_fila.
    apply last_item_window in Hl; [|lia..]. rewrite <- Hl. f_equal. lia. }
  split; [apply (emitidas_crecientes _ l 0 body N 0 outs); done|].
  split; [apply (emitidas_crecientes _ l (Z.to_nat (w - 1)) body N 0 outs); done|].
  apply (emitidas_Forall _ body (range (len l - w + 1)) outs); [|done].
  intros i r [Hi0 Hi1]%elem_of_range Hb.
  pose proof (Hini (Z.to_nat i) r ltac:(lia)) as H1.
  pose proof (Hfin (Z.to_nat i) r ltac:(lia)) as H2.
  rewrite Z2Nat.id in H1, H2 by lia. specialize (H1 Hb). specialize (H2 Hb).
  rewrite <- plus_n_O in H1. split; [|by exists (Z.to_nat i)].
  destruct (decide (w = 1)) as [->|Hne].
  - simpl in H2. rewrite <- plus_n_O in H2. rewrite H1 in H2. injection H2 as ->. lia.
  - apply Z.lt_le_incl.
    apply (StronglySorted_lt_lookup l (Z.to_nat i) (Z.to_nat i + Z.to_nat (w - 1)));
      [done|lia|done..].
Qed.

Lemma analizar_estacionariedad_ordenada_witness :
  1 ≤ 2
  ∧ ∃ T rows,
      snd (analizar_estacionariedad (R := rutinas_ejemplo datos_tres_fechas)
             datos_tres_fechas 2) = inr T
      ∧ T = pd_DataFrame rows
      ∧ StronglySorted Z.lt (Inicio_Ventana <$> rows).
Proof.
  split; [lia|].
  assert (HT : ∃ T, snd (analizar_estacionariedad (R := rutinas_ejemplo datos_tres_fechas)
                           datos_tres_fechas 2) = inr T)
    by (eexists; vm_compute; reflexivity).
  destruct HT as [T HT].
  destruct (analizar_estacionariedad_ordenada (R := rutinas_ejemplo datos_tres_fechas)
              datos_tres_fechas 2 T ltac:(lia) HT) as (rows & HTr & Hs & _).
  exists T, rows. split; [exact HT|]. split; [exact HTr|exact Hs].
Defined.

(** ** Missing column and degenerate window size *)

Lemma range_pos n : 0 < n → ∃ rest, range n = 0 :: rest.
Proof.
  intros Hn. unfold range.
  destruct (Z.to_nat n) as [|m] eqn:Hm; [lia|].
  simpl. eauto.
Qed.

Lemma for_each_skip_all body idx acc :
  (∀ i, i ∈ idx → body i = ok None) → for_each body idx acc = ok acc.
Proof.
  induction idx as [|i idx IH]; intros Hb; simpl; [done|].
  rewrite (Hb i) by by left. apply IH. intros j Hj. apply Hb. by right.
Qed.

Lemma py_slice_empty {A} (l : list A) (i : Z) : py_slice l i i = [].
Proof. unfold py_slice. by rewrite Z.sub_diag. Qed.

(** X2: when the frame has no ['Close'] column and there is at least one
    window to go through, the analysis ends with [KeyError] on ['Close'] at
    the first window; the frame has received its ['date'] column by then. *)
Theorem analizar_estacionariedad_sin_close `{R : Routines} (data : DataFrame) (w : Z) :
  columns data !! "Close" = None →
  w ≤ Z.of_nat (fechas_distintas data) →
  analizar_estacionariedad data w = (con_fecha data, raise (KeyError "Close")).
Proof.
  intros Hc Hw. rewrite analizar_estacionariedad_eq. f_equal.
  unfold len. rewrite length_fechas_de.
  destruct (range_pos (Z.of_nat (fechas_distintas data) - w + 1)) as [rest ->]; [lia|].
  simpl. unfold evaluar_ventana.
  rewrite (getitem_Some (con_fecha data) "date" (Dates (date_of <$> index data))).
  2:{ unfold con_fecha, setitem. simpl. by rewrite lookup_insert_eq. }
  simpl. rewrite getitem_mask_frame.
  rewrite (getitem_None (con_fecha data) "Close"). 
  2:{ unfold con_fecha, setitem. simpl. by rewrite lookup_insert_ne. }
  done.
Qed.

Lemma analizar_estacionariedad_sin_close_witness :
  columns datos_sin_close !! "Close" = None
  ∧ 2 ≤ Z.of_nat (fechas_distintas datos_sin_close)
  ∧ snd (analizar_estacionariedad (R := rutinas_ejemplo datos_sin_close) datos_sin_close 2)
    = raise (KeyError "Close").
Proof.
  split; [reflexivity|]. split; [vm_compute; discriminate|].
  rewrite (analizar_estacionariedad_sin_close (R := rutinas_ejemplo datos_sin_close)
             datos_sin_close 2); [reflexivity|reflexivity|vm_compute; discriminate].
Defined.

(** X3: with a window size of zero every window is empty and is skipped:
    on a frame with a float ['Close'] column the analysis returns the empty
    table, whatever the routines do. *)
Theorem analizar_estacionariedad_ventana_cero `{R : Routines} (data : DataFrame)
    (close : list float) :
  columns data !! "Close" = Some (Floats close) →
  analizar_estacionariedad data 0 = (con_fecha data, ok (pd_DataFrame [])).
Proof.
  intros Hc. rewrite analizar_estacionariedad_eq. f_equal.
  rewrite for_each_skip_all; [done|].
  intros i _.
  rewrite (evaluar_ventana_eq (con_fecha data) (date_of <$> index data) close).
  - rewrite Z.add_0_r, py_slice_empty, precios_validos_nil. done.
  - unfold con_fecha, setitem. simpl. by rewrite lookup_insert_eq.
  - unfold con_fecha, setitem. simpl. by rewrite lookup_insert_ne.
Qed.

Lemma analizar_estacionariedad_ventana_cero_witness :
  columns datos_tres_fechas !! "Close"
    = Some (Floats [Some 10%Q; Some 11%Q; Some 12%Q; Some 11%Q; Some 13%Q; Some 14%Q])
  ∧ snd (analizar_estacionariedad (R := rutinas_adf_falla datos_tres_fechas)
           datos_tres_fechas 0) = ok (pd_DataFrame []).
Proof.
  split; [reflexivity|].
  rewrite (analizar_estacionariedad_ventana_cero (R := rutinas_adf_falla datos_tres_fechas)
             datos_tres_fechas
             [Some 10%Q; Some 11%Q; Some 12%Q; Some 11%Q; Some 13%Q; Some 14%Q] eq_refl).
  reflexivity.
Defined.

(** ** Exceptions in the loop *)

Lemma for_each_raise body pre i post acc e :
  Forall (fun j => ∃ o, body j = inr o) pre →
  body i = inl e →
  for_each body (pre ++ i :: post) acc = raise e.
Proof.
  intros Hpre Hi. revert acc. induction Hpre as [|j pre [o Hj] _ IH]; intros acc; simpl.
  - by rewrite Hi.
  - rewrite Hj. destruct o; apply IH.
Qed.

Lemma range_split n (k : nat) :
  Z.of_nat k < n →
  range n = (Z.of_nat <$> seq 0 k) ++ Z.of_nat k
              :: (Z.of_nat <$> seq (S k) (Z.to_nat n - S k)).
Proof.
  intros Hk. unfold range.
  replace (Z.to_nat n) with (k + S (Z.to_nat n - S k))%nat at 1 by lia.
  rewrite seq_app, fmap_app. simpl. done.
Qed.

(** X4: the analysis stops at the first window whose evaluation raises: when
    the windows before index [k] are evaluated without exception and window
    [k] raises [e], the call ends with [e] and returns no table, not even the
    rows of the earlier windows; the frame keeps its ['date'] column. *)
Theorem analizar_estacionariedad_aborta `{R : Routines} (data : DataFrame) (w : Z)
    (k : nat) (e : Exn) :
  Z.of_nat k < Z.of_nat (fechas_distintas data) - w + 1 →
  (∀ j : nat, (j < k)%nat →
     ∃ o, evaluar_ventana (con_fecha data) (fechas_de data) w (Z.of_nat j) = inr o) →
  evaluar_ventana (con_fecha data) (fechas_de data) w (Z.of_nat k) = inl e →
  analizar_estacionariedad data w = (con_fecha data, raise e).
Proof.
  intros Hk Hpre He. rewrite analizar_estacionariedad_eq. f_equal.
  unfold len. rewrite length_fechas_de, (range_split _ k) by done.
  rewrite (for_each_raise _ _ _ _ _ e); [done| |done].
  apply Forall_forall. intros i (j & -> & Hj)%list_elem_of_fmap.
  apply Hpre. apply elem_of_seq in Hj. lia.
Qed.

Lemma analizar_estacionariedad_aborta_witness :
  Z.of_nat 1 < Z.of_nat (fechas_distintas datos_hueco_inicial) - 2 + 1
  ∧ analizar_estacionariedad (R := rutinas_adf_falla datos_hueco_inicial)
      datos_hueco_inicial 2
    = (con_fecha datos_hueco_inicial, raise (ValueError "Invalid input, x is constant")).
Proof.
  split; [vm_compute; reflexivity|].
  apply (analizar_estacionariedad_aborta (R := rutinas_adf_falla datos_hueco_inicial)
           datos_hueco_inicial 2 1).
  - vm_compute. reflexivity.
  - intros j Hj. assert (j = 0%nat) as -> by lia. exists None. vm_compute. reflexivity.
  - vm_compute. reflexivity.
Defined.

Section Registro.
Context `{R : Routines}.

Lemma evaluar_ventana_con_fecha data close w i :
  columns data !! "Close" = Some (Floats close) →
  evaluar_ventana (con_fecha data) (fechas_de data) w i =
  evaluar_precios (py_slice (fechas_de data) i (i + w))
    (precios_validos (date_of <$> index data) close (py_slice (fechas_de data) i (i + w))).
Proof.
  intros Hc. apply evaluar_ventana_eq; unfold con_fecha, setitem; simpl.
  - by rewrite lookup_insert_eq.
  - by rewrite lookup_insert_ne.
Qed.

Lemma calcular_hurst_corta data h :
  len data < 100 → calcular_hurst data = inr h → h = None.
Proof.
  unfold calcular_hurst. intros Hlt.
  destruct (Z.ltb_spec (len data) 100); [|lia]. by intros [= <-].
Qed.
End Registro.

(** X5: a row records the outcomes of the routines on the return series of
    its own window: the second component of what [adfuller] returns, the
    second component of what [kpss] returns for [regression="c"] and
    [nlags="auto"] or null when it raises, and the first component of what
    [compute_Hc] returns or null.  A window needs at least 101 valid prices
    for its exponent not to be null. *)
Theorem evaluar_ventana_registra `{R : Routines} (data : DataFrame)
    (close : list float) (w i : Z) (r : WindowResult) :
  columns data !! "Close" = Some (Floats close) →
  let precios :=
    precios_validos (date_of <$> index data) close (py_slice (fechas_de data) i (i + w)) in
  let retornos := dropna (pct_change precios) in
  evaluar_ventana (con_fecha data) (fechas_de data) w i = ok (Some r) →
  2 ≤ len precios
  ∧ len retornos = len precios - 1
  ∧ (∃ a, adfuller retornos = inr a ∧ ADF_p_value r = a.2)
  ∧ KPSS_p_value r =
      match kpss retornos "c" "auto" with
      | inr k => k.2
      | inl _ => None
      end
  ∧ Hurst_Exponent r =
      (if len retornos <? 100 then None
       else match compute_Hc retornos "price" true with
            | inr (H, _, _) => H
            | inl _ => None
            end)
  ∧ (len precios ≤ 100 → Hurst_Exponent r = None).
Proof.
  intros Hc precios retornos. rewrite (evaluar_ventana_con_fecha data close) by done.
  fold precios. unfold evaluar_precios.
  destruct (Z.ltb_spec (len precios) 2) as [|Hge]; [done|]. fold retornos.
  assert (Hlen : len retornos = len precios - 1).
  { unfold retornos, len in *. rewrite length_retornos. lia. }
  unfold pruebas_estacionariedad.
  destruct (adfuller retornos) as [|a] eqn:Ha; simpl; [done|].
  assert (Hh : ∀ h, calcular_hurst retornos = inr h →
             h = (if len retornos <? 100 then None
                  else match compute_Hc retornos "price" true with
                       | inr (H, _, _) => H
                       | inl _ => None
                       end)).
  { intros h. unfold calcular_hurst. destruct (len retornos <? 100); [by intros [= <-]|].
    destruct (compute_Hc retornos "price" true) as [[]|[[H c] rs]]; try done;
      by intros [= <-]. }
  assert (Hrow : ∀ (p1 p2 : float),
    (h ←! calcular_hurst retornos;
     inicio ←! first_item (py_slice (fechas_de data) i (i + w));
     final ←! last_item (py_slice (fechas_de data) i (i + w));
     ok (Some (mkWindowResult inicio final p1 p2 h (Series_std ddof_default retornos))))
    = ok (Some r) →
    ADF_p_value r = p1 ∧ KPSS_p_value r = p2
    ∧ Hurst_Exponent r =
        (if len retornos <? 100 then None
         else match compute_Hc retornos "price" true with
              | inr (H, _, _) => H
              | inl _ => None
              end)).
  { intros p1 p2.
    destruct (calcular_hurst retornos) as [|h] eqn:Hhu; simpl; [done|].
    destruct (first_item _); simpl; [done|].
    destruct (last_item _); simpl; [done|].
    intros [= <-]. simpl. split; [done|]. split; [done|]. by apply Hh. }
  assert (Hfloor : len precios ≤ 100 → (len retornos <? 100) = true).
  { intros Hle. by destruct (Z.ltb_spec (len retornos) 100); [|lia]. }
  destruct (kpss retornos "c" "auto") as [ek|k] eqn:Hk.
  - destruct ek; try done. simpl. intros Hr.
    destruct (Hrow a.2 None Hr) as (H1 & H2 & H3).
    split; [done|]. split; [done|]. split; [by exists a|]. split; [done|].
    split; [done|]. intros Hle. by rewrite H3, Hfloor.
  - simpl. intros Hr.
    destruct (Hrow a.2 k.2 Hr) as (H1 & H2 & H3).
    split; [done|]. split; [done|]. split; [by exists a|]. split; [done|].
    split; [done|]. intros Hle. by rewrite H3, Hfloor.
Qed.

Lemma evaluar_ventana_registra_witness :
  columns datos_tres_fechas !! "Close"
    = Some (Floats [Some 10%Q; Some 11%Q; Some 12%Q; Some 11%Q; Some 13%Q; Some 14%Q])
  ∧ ∃ r, evaluar_ventana (R := rutinas_ejemplo datos_tres_fechas)
           (con_fecha datos_tres_fechas) (fechas_de datos_tres_fechas) 2 0 = ok (Some r)
         ∧ ADF_p_value r = Some 0.01%Q
         ∧ Hurst_Exponent r = None.
Proof.
  split; [reflexivity|].
  assert (Hr : ∃ r, evaluar_ventana (R := rutinas_ejemplo datos_tres_fechas)
                      (con_fecha datos_tres_fechas) (fechas_de datos_tres_fechas) 2 0
                    = ok (Some r)) by (eexists; vm_compute; reflexivity).
  destruct Hr as [r Hr]. exists r. split; [exact Hr|].
  destruct (evaluar_ventana_registra (R := rutinas_ejemplo datos_tres_fechas)
              datos_tres_fechas
              [Some 10%Q; Some 11%Q; Some 12%Q; Some 11%Q; Some 13%Q; Some 14%Q]
              2 0 r eq_refl Hr) as (_ & _ & (a & Ha & Hadf) & _ & _ & Hh).
  split.
  - rewrite Hadf. injection Ha as <-. reflexivity.
  - apply Hh. vm_compute. discriminate.
Defined.

(** X6: in a window with at least two valid prices, an exception of
    [adfuller], an exception of [kpss] that is not a [ValueError], and an
    exception of [compute_Hc] that is not a [FloatingPointError] each end the
    evaluation of the window with that exception. *)
Theorem evaluar_ventana_propaga `{R : Routines} (data : DataFrame)
    (close : list float) (w i : Z) :
  columns data !! "Close" = Some (Floats close) →
  let precios :=
    precios_validos (date_of <$> index data) close (py_slice (fechas_de data) i (i + w)) in
  let retornos := dropna (pct_change precios) in
  let body := evaluar_ventana (con_fecha data) (fechas_de data) w in
  2 ≤ len precios →
  (∀ e, adfuller retornos = inl e → body i = raise e)
  ∧ (∀ a e, adfuller retornos = inr a →
       kpss retornos "c" "auto" = inl e →
       (∀ msg, e ≠ ValueError msg) →
       body i = raise e)
  ∧ (∀ est e, pruebas_estacionariedad retornos = inr est →
       100 ≤ len retornos →
       compute_Hc retornos "price" true = inl e →
       (∀ msg, e ≠ FloatingPointError msg) →
       body i = raise e).
Proof.
  intros Hc precios retornos body Hge. unfold body.
  rewrite (evaluar_ventana_con_fecha data close) by done. fold precios.
  unfold evaluar_precios. destruct (Z.ltb_spec (len precios) 2); [lia|]. fold retornos.
  destruct (pruebas_estacionariedad_propaga retornos) as [Hadf Hkpss].
  split; [|split].
  - intros e He. by rewrite (Hadf e He).
  - intros a e Ha Hk Hne. by rewrite (Hkpss a e Ha Hk Hne).
  - intros est e -> Hlen He Hne. simpl. unfold calcular_hurst.
    destruct (Z.ltb_spec (len retornos) 100); [lia|]. rewrite He.
    destruct e; try done. by destruct (Hne msg).
Qed.

Lemma evaluar_ventana_propaga_witness :
  columns datos_tres_fechas !! "Close"
    = Some (Floats [Some 10%Q; Some 11%Q; Some 12%Q; Some 11%Q; Some 13%Q; Some 14%Q])
  ∧ evaluar_ventana (R := rutinas_adf_falla datos_tres_fechas)
      (con_fecha datos_tres_fechas) (fechas_de datos_tres_fechas) 2 0
    = raise (ValueError "Invalid input, x is constant").
Proof.
  split; [reflexivity|].
  apply (evaluar_ventana_propaga (R := rutinas_adf_falla datos_tres_fechas)
           datos_tres_fechas
           [Some 10%Q; Some 11%Q; Some 12%Q; Some 11%Q; Some 13%Q; Some 14%Q]
           2 0 eq_refl).
  - vm_compute. discriminate.
  - reflexivity.
Defined.

(** ** What the analysis asks of the routines *)

Lemma retornos_no_vacio precios : 2 ≤ len precios → dropna (pct_change precios) ≠ [].
Proof.
  intros Hge Hnil. apply (f_equal length) in Hnil.
  rewrite length_retornos in Hnil. unfold len in Hge. simpl in Hnil. lia.
Qed.

(** X7: the analysis calls [adfuller] and [kpss] on non-empty series only,
    [kpss] with [regression="c"] and [nlags="auto"] only, and [compute_Hc]
    on series of at least 100 observations with [kind="price"] and
    [simplified=True] only: two sets of routines that agree on those calls
    (and on the square root) give the same frame and the same outcome. *)
Theorem analizar_estacionariedad_dominio (R1 R2 : Routines) (data : DataFrame) (w : Z) :
  (∀ xs, xs ≠ [] → @adfuller R1 xs = @adfuller R2 xs) →
  (∀ xs, xs ≠ [] → @kpss R1 xs "c" "auto" = @kpss R2 xs "c" "auto") →
  (∀ xs, 100 ≤ len xs → @compute_Hc R1 xs "price" true = @compute_Hc R2 xs "price" true) →
  (∀ q, @np_sqrt R1 q = @np_sqrt R2 q) →
  @analizar_estacionariedad R1 data w = @analizar_estacionariedad R2 data w.
Proof.
  intros Hadf Hkpss Hhc Hsqrt.
  unfold analizar_estacionariedad. f_equal.
  destruct (getitem _ "date") as [|[xs|ds]]; simpl; [done..|].
  f_equal. apply for_each_ext. intros i. unfold evaluar_ventana.
  destruct (getitem _ "date") as [|date]; simpl; [done|].
  destruct (getitem (mask_frame _ _) "Close") as [|close]; simpl; [done|].
  destruct (col_gt close 0) as [|positivos]; simpl; [done|].
  match goal with |- context [len ?p <? 2] => set (precios := p) end.
  destruct (Z.ltb_spec (len precios) 2) as [|Hge]; [done|].
  pose proof (retornos_no_vacio precios Hge) as Hne.
  set (retornos := dropna (pct_change precios)) in *.
  assert (Hp : @pruebas_estacionariedad R1 retornos = @pruebas_estacionariedad R2 retornos).
  { unfold pruebas_estacionariedad. by rewrite Hadf, Hkpss. }
  assert (Hh : @calcular_hurst R1 retornos = @calcular_hurst R2 retornos).
  { unfold calcular_hurst. destruct (Z.ltb_spec (len retornos) 100); [done|].
    by rewrite Hhc. }
  assert (Hs : @Series_std R1 ddof_default retornos = @Series_std R2 ddof_default retornos).
  { unfold Series_std. destruct (_ <=? _)%nat; [done|]. by rewrite Hsqrt. }
  by rewrite Hp, Hh, Hs.
Qed.

Lemma analizar_estacionariedad_dominio_witness :
  (∀ xs, xs ≠ [] → @adfuller (rutinas_ejemplo datos_tres_fechas) xs
                   = @adfuller (rutinas_fuera_de_dominio datos_vacios) xs)
  ∧ @analizar_estacionariedad (rutinas_ejemplo datos_tres_fechas) datos_tres_fechas 2
    = @analizar_estacionariedad (rutinas_fuera_de_dominio datos_vacios) datos_tres_fechas 2.
Proof.
  assert (Hadf : ∀ xs, xs ≠ [] → @adfuller (rutinas_ejemplo datos_tres_fechas) xs
                                 = @adfuller (rutinas_fuera_de_dominio datos_vacios) xs).
  { intros [|x xs] Hne; [done|reflexivity]. }
  split; [exact Hadf|].
  apply (analizar_estacionariedad_dominio (rutinas_ejemplo datos_tres_fechas)
           (rutinas_fuera_de_dominio datos_vacios) datos_tres_fechas 2 Hadf).
  - intros xs Hne. simpl. rewrite bool_decide_eq_true_2; [reflexivity|done].
  - intros xs Hlen. simpl. rewrite bool_decide_eq_true_2; [reflexivity|done].
  - reflexivity.
Defined.

(** ** The windows and the dates *)

Lemma elem_of_py_slice {A} (l : list A) (i j : Z) x : x ∈ py_slice l i j → x ∈ l.
Proof.
  unfold py_slice. intros Hx.
  apply (subseteq_drop (Z.to_nat (slice_bound (len l) i)) l).
  by apply (subseteq_take (Z.to_nat (slice_bound (len l) j - slice_bound (len l) i))).
Qed.

Lemma ventanas_lookup data w (k : nat) :
  1 ≤ w → Z.of_nat k < len (fechas_de data) - w + 1 →
  ventanas data w !! k = Some (take (Z.to_nat w) (drop k (fechas_de data))).
Proof.
  intros Hw Hk. unfold ventanas. rewrite list_lookup_fmap, lookup_range by lia.
  simpl. rewrite py_slice_window by lia. by rewrite Nat2Z.id.
Qed.

Lemma ventanas_lookup_Some data w (k : nat) v :
  ventanas data w !! k = Some v →
  Z.of_nat k < len (fechas_de data) - w + 1
  ∧ v = py_slice (fechas_de data) (Z.of_nat k) (Z.of_nat k + w).
Proof.
  unfold ventanas. rewrite list_lookup_fmap. unfold range. rewrite list_lookup_fmap.
  destruct (seq 0 _ !! k) as [j|] eqn:Hj; [|done].
  apply lookup_seq in Hj as [-> Hlt]. simpl. intros [= <-]. split; [lia|done].
Qed.

(** X8: for [1 <= w <= d] the windows cover the calendar dates of the index:
    every date of the index lies in some window, every date of a window is
    the date of some timestamp of the index, and a window shares all its
    dates but the first with the beginning of the next one. *)
Theorem ventanas_cubren (data : DataFrame) (w : Z) :
  1 ≤ w →
  w ≤ Z.of_nat (fechas_distintas data) →
  (∀ ts, ts ∈ index data → ∃ v, v ∈ ventanas data w ∧ date_of ts ∈ v)
  ∧ (∀ v d, v ∈ ventanas data w → d ∈ v → ∃ ts, ts ∈ index data ∧ d = date_of ts)
  ∧ (∀ (k : nat) v v',
       ventanas data w !! k = Some v → ventanas data w !! S k = Some v' →
       drop 1 v = take (Z.to_nat w - 1) v').
Proof.
  intros Hw Hd.
  assert (Hlen : len (fechas_de data) = Z.of_nat (fechas_distintas data)).
  { unfold len. by rewrite length_fechas_de. }
  set (l := fechas_de data) in *.
  split; [|split].
  - intros ts Hts.
    assert (Hin : date_of ts ∈ l) by (apply elem_of_fechas_de; eauto).
    apply list_elem_of_lookup_1 in Hin as [j Hj].
    pose proof (lookup_lt_Some _ _ _ Hj) as Hjl. unfold len in Hlen.
    set (k := Nat.min j (length l - Z.to_nat w)).
    exists (take (Z.to_nat w) (drop k l)). split.
    + apply (list_elem_of_lookup_2 _ k). apply ventanas_lookup; [done|].
      fold l. unfold len. lia.
    + apply (list_elem_of_lookup_2 _ (j - k)).
      rewrite lookup_take_lt, lookup_drop by lia.
      rewrite <- Hj. f_equal. lia.
  - intros v d Hv Hdv. apply elem_of_fechas_de. fold l.
    apply list_elem_of_lookup_1 in Hv as [k Hk].
    apply ventanas_lookup_Some in Hk as [_ ->].
    by eapply elem_of_py_slice.
  - intros k v v' Hv Hv'.
    pose proof (ventanas_lookup_Some _ _ _ _ Hv) as [Hk _].
    pose proof (ventanas_lookup_Some _ _ _ _ Hv') as [Hk' _].
    rewrite ventanas_lookup in Hv, Hv' by done.
    injection Hv as <-. injection Hv' as <-. fold l in Hk, Hk' |- *.
    unfold len in Hk, Hk'.
    destruct (lookup_lt_is_Some_2 l k) as [x Hx]; [lia|].
    rewrite (drop_S l x k Hx).
    destruct (Z.to_nat w) as [|m] eqn:Hm; [lia|].
    simpl. rewrite drop_0, take_take. f_equal. lia.
Qed.

Lemma ventanas_cubren_witness :
  1 ≤ 2
  ∧ 2 ≤ Z.of_nat (fechas_distintas datos_tres_fechas)
  ∧ ∀ ts, ts ∈ index datos_tres_fechas →
          ∃ v, v ∈ ventanas datos_tres_fechas 2 ∧ date_of ts ∈ v.
Proof.
  assert (Hd : 2 ≤ Z.of_nat (fechas_distintas datos_tres_fechas))
    by (vm_compute; discriminate).
  split; [lia|]. split; [exact Hd|].
  apply (ventanas_cubren datos_tres_fechas 2); [lia|exact Hd].
Defined.

(** ** Bounds of the percentages *)

Lemma count_true_le bs : (count_true bs ≤ length bs)%nat.
Proof. unfold count_true. apply length_filter. Qed.

Lemma mean_bool_bounds bs q :
  times_100 (mean_bool bs) = Some q → (0 <= q)%Q ∧ (q <= 100)%Q.
Proof.
  destruct bs as [|b bs]; [done|].
  unfold mean_bool, times_100, len. simpl fmap. intros [= <-].
  set (c := count_true (b :: bs)). set (n := length (b :: bs)).
  assert (Hc : (c ≤ n)%nat) by apply count_true_le.
  assert (Hn : (0 < n)%nat) by (unfold n; simpl; lia).
  assert (Hn' : (0 < inject_Z (Z.of_nat n))%Q).
  { rewrite <- (Zlt_Qlt 0). lia. }
  assert (H100 : (0 <= 100)%Q) by by vm_compute.
  split.
  - apply Qmult_le_0_compat; [|done].
    apply Qle_shift_div_l; [done|]. rewrite Qmult_0_l.
    rewrite <- (Zle_Qle 0). lia.
  - apply Qle_trans with (1 * 100)%Q; [|by vm_compute].
    apply Qmult_le_compat_r; [|done].
    apply Qle_shift_div_r; [done|]. rewrite Qmult_1_l.
    rewrite <- Zle_Qle. change (S (length bs)) with n. lia.
Qed.

(** X9: whatever the table, a percentage that [generar_reporte] computes as
    a number lies between 0 and 100. *)
Theorem porcentajes_acotados (df : DataFrame) (q : Q) :
  estacionario_adf df = ok (Some q)
  ∨ estacionario_kpss df = ok (Some q)
  ∨ hurst_estacionario df = ok (Some q) →
  (0 <= q)%Q ∧ (q <= 100)%Q.
Proof.
  unfold estacionario_adf, estacionario_kpss, hurst_estacionario.
  intros [H|[H|H]].
  - destruct (getitem df "ADF p-value") as [|c]; simpl in H; [done|].
    destruct (col_lt c _) as [|b]; simpl in H; [done|].
    injection H as H. by apply (mean_bool_bounds b).
  - destruct (getitem df "KPSS p-value") as [|c]; simpl in H; [done|].
    destruct (col_gt c _) as [|b]; simpl in H; [done|].
    injection H as H. by apply (mean_bool_bounds b).
  - destruct (getitem df "Hurst Exponent") as [|c]; simpl in H; [done|].
    destruct (col_gt c _) as [|b1]; simpl in H; [done|].
    destruct (col_lt c _) as [|b2]; simpl in H; [done|].
    injection H as H. by apply (mean_bool_bounds (and_series b1 b2)).
Qed.

Lemma porcentajes_acotados_witness :
  estacionario_adf (pd_DataFrame diez_filas) = ok (Some (600 # 10))
  ∧ (0 <= 600 # 10)%Q ∧ (600 # 10 <= 100)%Q.
Proof.
  assert (H : estacionario_adf (pd_DataFrame diez_filas) = ok (Some (600 # 10)))
    by (vm_compute; reflexivity).
  split; [exact H|].
  apply (porcentajes_acotados (pd_DataFrame diez_filas) (600 # 10)). left. exact H.
Defined.

(** ** The report and the chart after an analysis *)

Lemma generar_reporte_filas rows :
  rows ≠ [] →
  generar_reporte (pd_DataFrame rows) =
  ok (resumen (Some (porcentaje adf_estacionaria rows))
              (Some (porcentaje kpss_estacionaria rows))
              (Some (porcentaje hurst_estacionaria rows))).
Proof.
  intros Hne. unfold generar_reporte. rewrite empty_pd_DataFrame.
  rewrite bool_decide_eq_false_2 by done.
  destruct rows as [|r rows]; [done|].
  unfold estacionario_adf, estacionario_kpss, hurst_estacionario.
  rewrite getitem_pd_DataFrame_ADF, getitem_pd_DataFrame_KPSS,
    getitem_pd_DataFrame_Hurst.
  simpl bind. rewrite <- !list_fmap_compose, and_series_fmap.
  rewrite <- (mean_bool_fmap adf_estacionaria) by done.
  rewrite <- (mean_bool_fmap kpss_estacionaria) by done.
  rewrite <- (mean_bool_fmap hurst_estacionaria) by done.
  reflexivity.
Qed.

Lemma resumen_no_mensaje a k h : resumen a k h ≠ mensaje_sin_informacion.
Proof.
  intros Heq.
  apply (f_equal (fun s => match s with String c _ => Some c | EmptyString => None end))
    in Heq.
  discriminate Heq.
Qed.

Lemma getitem_pd_DataFrame_Inicio r rows :
  getitem (pd_DataFrame (r :: rows)) "Inicio Ventana"
  = ok (Dates (Inicio_Ventana <$> r :: rows)).
Proof.
  apply getitem_Some. unfold pd_DataFrame. simpl columns. by rewrite lookup_insert_eq.
Qed.

Lemma graficar_filas r rows :
  graficar (pd_DataFrame (r :: rows)) =
  ([st_pyplot
      [ax_plot (Dates (Inicio_Ventana <$> r :: rows)) (Floats (ADF_p_value <$> r :: rows))
         "ADF p-value" "o";
       ax_plot (Dates (Inicio_Ventana <$> r :: rows)) (Floats (KPSS_p_value <$> r :: rows))
         "KPSS p-value" "o";
       ax_set_title "Evolución de las pruebas de estacionariedad";
       ax_axhline 0.05%Q "red" "--" "Umbral de estacionariedad (0.05)";
       ax_set_xlabel "Fecha";
       ax_set_ylabel "p-value";
       ax_legend]],
   ok tt).
Proof.
  unfold graficar, graficar_fig.
  rewrite getitem_pd_DataFrame_Inicio, getitem_pd_DataFrame_ADF,
    getitem_pd_DataFrame_KPSS.
  reflexivity.
Qed.

(** X10: on every table that [analizar_estacionariedad] returns,
    [generar_reporte] returns a text and raises nothing; the text is the
    fixed message exactly when the table has no row. *)
Theorem generar_reporte_tras_analizar `{R : Routines} (data : DataFrame) (w : Z)
    (T : DataFrame) :
  snd (analizar_estacionariedad data w) = inr T →
  ∃ s, generar_reporte T = ok s
       ∧ (s = mensaje_sin_informacion ↔ filas T = 0%nat).
Proof.
  intros (outs & _ & ->)%analizar_estacionariedad_inv.
  rewrite filas_pd_DataFrame.
  destruct (omap id outs) as [|r rows] eqn:Hrows.
  - exists mensaje_sin_informacion. split; [done|]. done.
  - eexists. split; [by apply generar_reporte_filas|].
    split; [|done]. intros Hs. by apply resumen_no_mensaje in Hs.
Qed.

Lemma generar_reporte_tras_analizar_witness :
  ∃ T s,
    snd (analizar_estacionariedad (R := rutinas_ejemplo datos_tres_fechas)
           datos_tres_fechas 2) = inr T
    ∧ generar_reporte T = ok s
    ∧ s ≠ mensaje_sin_informacion.
Proof.
  assert (HT : ∃ T, snd (analizar_estacionariedad (R := rutinas_ejemplo datos_tres_fechas)
                           datos_tres_fechas 2) = inr T ∧ filas T ≠ 0%nat).
  { eexists. split; [vm_compute; reflexivity|]. vm_compute. discriminate. }
  destruct HT as (T & HT & Hf).
  destruct (generar_reporte_tras_analizar (R := rutinas_ejemplo datos_tres_fechas)
              datos_tres_fechas 2 T HT) as (s & Hs & Hiff).
  exists T, s. split; [exact HT|]. split; [exact Hs|].
  intros Heq. apply Hf. apply Hiff. exact Heq.
Defined.

(** X11: when the analysis returns a table with at least one row,
    [graficar] draws one figure and raises nothing: the two lines plot the
    unit-root and the level-stationarity p-values against the same start
    dates, with one point per row of the table. *)
Theorem graficar_tras_analizar `{R : Routines} (data : DataFrame) (w : Z)
    (T : DataFrame) :
  snd (analizar_estacionariedad data w) = inr T →
  filas T ≠ 0%nat →
  ∃ xs adf kpss_p,
    graficar T =
      ([st_pyplot
          [ax_plot (Dates xs) (Floats adf) "ADF p-value" "o";
           ax_plot (Dates xs) (Floats kpss_p) "KPSS p-value" "o";
           ax_set_title "Evolución de las pruebas de estacionariedad";
           ax_axhline 0.05%Q "red" "--" "Umbral de estacionariedad (0.05)";
           ax_set_xlabel "Fecha";
           ax_set_ylabel "p-value";
           ax_legend]],
       ok tt)
    ∧ columns T !! "Inicio Ventana" = Some (Dates xs)
    ∧ columns T !! "ADF p-value" = Some (Floats adf)
    ∧ columns T !! "KPSS p-value" = Some (Floats kpss_p)
    ∧ length xs = filas T ∧ length adf = filas T ∧ length kpss_p = filas T.
Proof.
  intros (outs & _ & ->)%analizar_estacionariedad_inv.
  rewrite filas_pd_DataFrame.
  destruct (omap id outs) as [|r rows] eqn:Hrows; [done|]. intros _.
  exists (Inicio_Ventana <$> r :: rows), (ADF_p_value <$> r :: rows),
    (KPSS_p_value <$> r :: rows).
  split; [apply graficar_filas|].
  pose proof (getitem_pd_DataFrame_Inicio r rows) as H1.
  pose proof (getitem_pd_DataFrame_ADF r rows) as H2.
  pose proof (getitem_pd_DataFrame_KPSS r rows) as H3.
  unfold getitem in H1, H2, H3.
  destruct (columns _ !! "Inicio Ventana"); [|done].
  destruct (columns _ !! "ADF p-value"); [|done].
  destruct (columns _ !! "KPSS p-value"); [|done].
  injection H1 as ->. injection H2 as ->. injection H3 as ->.
  by rewrite !length_fmap.
Qed.

Lemma graficar_tras_analizar_witness :
  ∃ T,
    snd (analizar_estacionariedad (R := rutinas_ejemplo datos_tres_fechas)
           datos_tres_fechas 2) = inr T
    ∧ filas T ≠ 0%nat
    ∧ snd (graficar T) = ok tt.
Proof.
  assert (HT : ∃ T, snd (analizar_estacionariedad (R := rutinas_ejemplo datos_tres_fechas)
                           datos_tres_fechas 2) = inr T ∧ filas T ≠ 0%nat).
  { eexists. split; [vm_compute; reflexivity|]. vm_compute. discriminate. }
  destruct HT as (T & HT & Hf).
  destruct (graficar_tras_analizar (R := rutinas_ejemplo datos_tres_fechas)
              datos_tres_fechas 2 T HT Hf) as (xs & adf & kp & Hg & _).
  exists T. split; [exact HT|]. split; [exact Hf|]. by rewrite Hg.
Defined.

(** ** How a run of the page ends *)

(** X12: with an empty download the page shows the error message, nothing
    is analysed and the table is left as downloaded.  Otherwise the table
    gets its ['date'] column, and the run ends with the exception of the
    analysis if it raises, with [KeyError] on ['Inicio Ventana'] if the
    analysis returns a table without rows, and normally if the table has a
    row; the last call of a normal end is the chart. *)
Theorem main_fin `{R : Routines} :
  let datos := descargar_datos_oro "15m" "5d" in
  (empty datos = true →
     fin main = ok tt
     ∧ datos_final main = datos
     ∧ last (pagina main)
       = Some (st_error "No se pudieron descargar los datos del oro. Intenta nuevamente más tarde."))
  ∧ (empty datos = false →
     datos_final main = con_fecha datos
     ∧ fin main =
         match snd (analizar_estacionariedad datos 2) with
         | inl e => raise e
         | inr T => if empty T then raise (KeyError "Inicio Ventana") else ok tt
         end
     ∧ (fin main = ok tt → ∃ fig, last (pagina main) = Some (st_pyplot fig))).
Proof.
  intros datos. split.
  - intros He. unfold main. fold datos. rewrite He. done.
  - intros He. unfold main. fold datos. rewrite He.
    pose proof (analizar_estacionariedad_inv datos 2) as Hinv.
    rewrite analizar_estacionariedad_eq in Hinv |- *. simpl snd in *.
    destruct (for_each _ _ []) as [e|rows] eqn:Hloop; simpl.
    + split; [done|]. split; [done|]. done.
    + destruct rows as [|r rows].
      * split; [done|]. split; [done|]. done.
      * rewrite generar_reporte_filas by done. rewrite graficar_filas.
        rewrite empty_pd_DataFrame, bool_decide_eq_false_2 by done.
        simpl. split; [done|]. split; [done|]. intros _. eexists. reflexivity.
Qed.

Lemma main_fin_witness :
  empty (descargar_datos_oro (R := rutinas_ejemplo datos_tres_fechas) "15m" "5d") = false
  ∧ fin (main (R := rutinas_ejemplo datos_tres_fechas)) = ok tt
  ∧ empty (descargar_datos_oro (R := rutinas_ejemplo datos_vacios) "15m" "5d") = true
  ∧ datos_final (main (R := rutinas_ejemplo datos_vacios)) = datos_vacios.
Proof.
  assert (H1 : empty (descargar_datos_oro (R := rutinas_ejemplo datos_tres_fechas)
                        "15m" "5d") = false) by reflexivity.
  assert (H2 : empty (descargar_datos_oro (R := rutinas_ejemplo datos_vacios)
                        "15m" "5d") = true) by reflexivity.
  split; [exact H1|]. split.
  - destruct (proj2 (main_fin (R := rutinas_ejemplo datos_tres_fechas)) H1)
      as (_ & Hfin & _).
    rewrite Hfin. vm_compute. reflexivity.
  - split; [exact H2|].
    destruct (proj1 (main_fin (R := rutinas_ejemplo datos_vacios)) H2) as (_ & Hd & _).
    exact Hd.
Defined.

(** ** Bars outside a window *)

Lemma mask_list_isin_local (ventana ds : list Z) (c1 c2 : list float) :
  (∀ (k : nat) d, ds !! k = Some d → d ∈ ventana → c1 !! k = c2 !! k) →
  mask_list (isin (Dates ds) ventana) c1 = mask_list (isin (Dates ds) ventana) c2.
Proof.
  unfold isin. revert c1 c2.
  induction ds as [|d ds IH]; intros c1 c2 Hloc; [by destruct c1, c2|].
  assert (Htl : ∀ t1 t2 : list float,
            (∀ (k : nat) d', ds !! k = Some d' → d' ∈ ventana → t1 !! k = t2 !! k) →
            mask_list ((fun d => bool_decide (d ∈ ventana)) <$> ds) t1
            = mask_list ((fun d => bool_decide (d ∈ ventana)) <$> ds) t2)
    by exact IH.
  rewrite fmap_cons.
  destruct c1 as [|x c1], c2 as [|y c2]; simpl.
  - done.
  - case_bool_decide as Hd.
    + by specialize (Hloc 0%nat d eq_refl Hd).
    + rewrite <- (Htl [] c2); [by destruct (_ <$> ds)|].
      intros k d' Hk Hin. apply (Hloc (S k) d' Hk Hin).
  - case_bool_decide as Hd.
    + by specialize (Hloc 0%nat d eq_refl Hd).
    + rewrite (Htl c1 []); [by destruct (_ <$> ds)|].
      intros k d' Hk Hin. apply (Hloc (S k) d' Hk Hin).
  - assert (Hrest : mask_list ((fun d => bool_decide (d ∈ ventana)) <$> ds) c1
                    = mask_list ((fun d => bool_decide (d ∈ ventana)) <$> ds) c2).
    { apply Htl. intros k d' Hk Hin. apply (Hloc (S k) d' Hk Hin). }
    case_bool_decide as Hd; [|done].
    specialize (Hloc 0%nat d eq_refl Hd). simpl in Hloc. injection Hloc as ->.
    by rewrite Hrest.
Qed.

(** X13: the evaluation of a window reads the prices of the bars of its own
    dates only: two frames with the same index whose ['Close'] columns agree
    on every bar whose date is in the window give the same outcome for that
    window. *)
Theorem evaluar_ventana_local `{R : Routines} (data1 data2 : DataFrame)
    (close1 close2 : list float) (w i : Z) :
  index data1 = index data2 →
  columns data1 !! "Close" = Some (Floats close1) →
  columns data2 !! "Close" = Some (Floats close2) →
  (∀ (k : nat) ts, index data1 !! k = Some ts →
     date_of ts ∈ py_slice (fechas_de data1) i (i + w) →
     close1 !! k = close2 !! k) →
  evaluar_ventana (con_fecha data1) (fechas_de data1) w i
  = evaluar_ventana (con_fecha data2) (fechas_de data2) w i.
Proof.
  intros Hidx Hc1 Hc2 Hloc.
  rewrite (evaluar_ventana_con_fecha data1 close1), (evaluar_ventana_con_fecha data2 close2)
    by done.
  assert (Hf : fechas_de data2 = fechas_de data1) by (unfold fechas_de; by rewrite Hidx).
  rewrite Hf, <- Hidx. f_equal. unfold precios_validos.
  rewrite (mask_list_isin_local _ _ close1 close2); [done|].
  intros k d Hk Hin. rewrite list_lookup_fmap in Hk.
  destruct (index data1 !! k) as [ts|] eqn:Hts; [|done].
  injection Hk as <-. by apply (Hloc k ts).
Qed.

Lemma evaluar_ventana_local_witness :
  index datos_tres_fechas = index datos_tres_fechas_bis
  ∧ evaluar_ventana (R := rutinas_ejemplo datos_tres_fechas)
      (con_fecha datos_tres_fechas) (fechas_de datos_tres_fechas) 2 0
    = evaluar_ventana (R := rutinas_ejemplo datos_tres_fechas)
        (con_fecha datos_tres_fechas_bis) (fechas_de datos_tres_fechas_bis) 2 0.
Proof.
  split; [reflexivity|].
  apply (evaluar_ventana_local (R := rutinas_ejemplo datos_tres_fechas)
           datos_tres_fechas datos_tres_fechas_bis
           [Some 10%Q; Some 11%Q; Some 12%Q; Some 11%Q; Some 13%Q; Some 14%Q]
           [Some 10%Q; Some 11%Q; Some 12%Q; Some 11%Q; None; Some 99%Q] 2 0
           eq_refl eq_refl eq_refl).
  intros k ts Hk Hin.
  destruct k as [|[|[|[|k]]]]; [reflexivity..|].
  destruct k as [|[|k]].
  - injection Hk as <-. vm_compute in Hin.
    apply elem_of_cons in Hin as [Hin|Hin]; [discriminate Hin|].
    apply elem_of_cons in Hin as [Hin|Hin]; [discriminate Hin|].
    by apply elem_of_nil in Hin.
  - injection Hk as <-. vm_compute in Hin.
    apply elem_of_cons in Hin as [Hin|Hin]; [discriminate Hin|].
    apply elem_of_cons in Hin as [Hin|Hin]; [discriminate Hin|].
    by apply elem_of_nil in Hin.
  - discriminate Hk.
Defined.

(** * The loop as a whole *)

(** ** Which windows are evaluated *)

Lemma for_each_inl_inv body idx acc e :
  for_each body idx acc = inl e →
  ∃ pre i post, idx = pre ++ i :: post
    ∧ Forall (fun j => ∃ o, body j = inr o) pre
    ∧ body i = inl e.
Proof.
  revert acc. induction idx as [|i idx IH]; intros acc; simpl; [done|].
  destruct (body i) as [e'|o] eqn:Hb.
  - intros [= ->]. exists [], i, idx. split; [done|]. split; [constructor|done].
  - intros Hrest.
    assert (Hrest' : ∃ acc', for_each body idx acc' = inl e)
      by (destruct o; eauto).
    destruct Hrest' as [acc' (pre & j & post & -> & Hpre & Hj)%IH].
    exists (i :: pre), j, post. split; [done|].
    split; [|done]. constructor; [by exists o|done].
Qed.

Lemma Forall2_range (P : Z → option WindowResult → Prop) n outs :
  Forall2 P (range n) outs ↔
  length outs = Z.to_nat n
  ∧ ∀ (k : nat) o, outs !! k = Some o → P (Z.of_nat k) o.
Proof.
  rewrite Forall2_same_length_lookup, length_range. split.
  - intros [Hlen HP]. split; [done|]. intros k o Ho. apply (HP k); [|done].
    apply lookup_range. apply lookup_lt_Some in Ho. lia.
  - intros [Hlen HP]. split; [done|]. intros k i o Hi Ho.
    pose proof (lookup_lt_Some _ _ _ Ho) as Hk.
    rewrite lookup_range in Hi by lia. injection Hi as <-. by apply HP.
Qed.

Lemma range_app_inv n pre i post :
  range n = pre ++ i :: post →
  i = Z.of_nat (length pre)
  ∧ (length pre < Z.to_nat n)%nat
  ∧ ∀ j : nat, (j < length pre)%nat → Z.of_nat j ∈ pre.
Proof.
  intros Heq.
  assert (Hlen : length (range n) = (length pre + S (length post))%nat).
  { rewrite Heq, length_app. simpl. lia. }
  rewrite length_range in Hlen.
  assert (Hi : range n !! length pre = Some i).
  { rewrite Heq. apply list_lookup_middle. done. }
  rewrite lookup_range in Hi by lia. injection Hi as <-.
  split; [done|]. split; [lia|].
  intros j Hj. apply (list_elem_of_lookup_2 _ j).
  rewrite <- (lookup_app_l pre (Z.of_nat (length pre) :: post)) by done.
  rewrite <- Heq. apply lookup_range. lia.
Qed.

(** C1: for a window size [w >= 1] and a series whose index spans [d]
    distinct calendar dates, [analizar_estacionariedad] evaluates the
    windows of the start indices [0, ..., max(0, d - w + 1) - 1], in order,
    and no other: the call returns a table exactly when each of these windows
    is evaluated without exception, and the table is made of the rows they
    yield, in order; the call ends with an exception exactly when one of these
    windows raises it after the windows before it were evaluated.  The window
    of index [k] is the slice of the [w] consecutive entries from position
    [k] of the strictly increasing list of distinct dates, and a row it
    yields carries the first and the last of them.  When [d < w] there is no
    window and the result is the empty table. *)
Theorem analizar_estacionariedad_recorre `{R : Routines} (data : DataFrame) (w : Z) :
  1 ≤ w →
  let d := Z.of_nat (fechas_distintas data) in
  let n := Z.to_nat (Z.max 0 (d - w + 1)) in
  let fechas := fechas_de data in
  let body := evaluar_ventana (con_fecha data) fechas w in
  len fechas = d
  ∧ StronglySorted Z.lt fechas
  ∧ (∀ T, snd (analizar_estacionariedad data w) = inr T ↔
       ∃ outs, length outs = n
         ∧ (∀ (k : nat) o, outs !! k = Some o → body (Z.of_nat k) = inr o)
         ∧ T = pd_DataFrame (omap id outs))
  ∧ (∀ e, snd (analizar_estacionariedad data w) = inl e ↔
       ∃ k : nat, (k < n)%nat
         ∧ body (Z.of_nat k) = inl e
         ∧ ∀ j : nat, (j < k)%nat → ∃ o, body (Z.of_nat j) = inr o)
  ∧ (∀ k : nat, (k < n)%nat →
       py_slice fechas (Z.of_nat k) (Z.of_nat k + w)
         = take (Z.to_nat w) (drop k fechas)
       ∧ len (take (Z.to_nat w) (drop k fechas)) = w
       ∧ ∀ r, body (Z.of_nat k) = ok (Some r) →
           fechas !! k = Some (Inicio_Ventana r)
           ∧ fechas !! (k + Z.to_nat (w - 1))%nat = Some (Fin_Ventana r))
  ∧ (d < w → snd (analizar_estacionariedad data w) = ok (pd_DataFrame [])).
Proof.
  intros Hw d n fechas body.
  assert (Hd : len fechas = d).
  { unfold len, d, fechas. by rewrite length_fechas_de. }
  assert (Hn : Z.to_nat (len fechas - w + 1) = n) by (unfold n; lia).
  assert (Hrun : snd (analizar_estacionariedad data w) =
                 (resultados ←! for_each body (range (len fechas - w + 1)) [];
                  ok (pd_DataFrame resultados))).
  { by rewrite analizar_estacionariedad_eq. }
  split; [done|]. split; [apply fechas_de_increasing|].
  split; [|split; [|split]].
  - intros T. rewrite Hrun. split.
    + destruct (for_each _ _ []) as [|rows] eqn:Hloop; simpl; [done|].
      intros [= <-]. apply for_each_inv in Hloop as (outs & HF & ->).
      apply Forall2_range in HF as [Hlen HP]. exists outs.
      split; [lia|]. split; [exact HP|done].
    + intros (outs & Hlen & HP & ->).
      rewrite (for_each_ok body _ [] outs); [done|].
      apply Forall2_range. split; [lia|exact HP].
  - intros e. rewrite Hrun. split.
    + destruct (for_each _ _ []) as [e'|rows] eqn:Hloop; simpl; [|done].
      intros [= ->].
      apply for_each_inl_inv in Hloop as (pre & i & post & Heq & Hpre & Hi).
      apply range_app_inv in Heq as (-> & Hk & Hin).
      exists (length pre). split; [lia|]. split; [done|].
      intros j Hj. rewrite Forall_forall in Hpre. apply Hpre. by apply Hin.
    + intros (k & Hk & He & Hpre).
      rewrite (range_split _ k) by lia.
      rewrite (for_each_raise body _ _ _ _ e); [done| |done].
      apply Forall_forall. intros i (j & -> & Hj)%list_elem_of_fmap.
      apply Hpre. apply elem_of_seq in Hj. lia.
  - intros k Hk.
    assert (Hfit : Z.of_nat k + w ≤ len fechas) by lia.
    split; [rewrite py_slice_window by lia; by rewrite Nat2Z.id|]. split.
    + unfold len in *. rewrite length_window; lia.
    + intros r [Hf Hl]%evaluar_ventana_fila.
      apply first_item_window in Hf; [|lia..].
      apply last_item_window in Hl; [|lia..].
      rewrite Nat2Z.id in Hf. split; [done|].
      rewrite <- Hl. f_equal. lia.
  - intros Hlt. rewrite Hrun, range_nonpos by lia. done.
Qed.

Lemma analizar_estacionariedad_recorre_witness :
  1 ≤ 2
  ∧ Z.to_nat (Z.max 0 (Z.of_nat (fechas_distintas datos_tres_fechas) - 2 + 1)) = 2%nat
  ∧ ∃ r0 r1,
      snd (analizar_estacionariedad (R := rutinas_ejemplo datos_tres_fechas)
             datos_tres_fechas 2) = ok (pd_DataFrame [r0; r1])
      ∧ Inicio_Ventana r0 = 0 ∧ Fin_Ventana r0 = 1
      ∧ Inicio_Ventana r1 = 1 ∧ Fin_Ventana r1 = 2.
Proof.
  split; [lia|]. split; [reflexivity|].
  pose proof (analizar_estacionariedad_recorre (R := rutinas_ejemplo datos_tres_fechas)
                datos_tres_fechas 2 ltac:(lia)) as (_ & _ & Htabla & _ & Hventana & _).
  assert (H0 : ∃ r, evaluar_ventana (R := rutinas_ejemplo datos_tres_fechas)
                      (con_fecha datos_tres_fechas) (fechas_de datos_tres_fechas) 2
                      (Z.of_nat 0) = ok (Some r)) by (eexists; vm_compute; reflexivity).
  assert (H1 : ∃ r, evaluar_ventana (R := rutinas_ejemplo datos_tres_fechas)
                      (con_fecha datos_tres_fechas) (fechas_de datos_tres_fechas) 2
                      (Z.of_nat 1) = ok (Some r)) by (eexists; vm_compute; reflexivity).
  destruct H0 as [r0 H0], H1 as [r1 H1]. exists r0, r1. split.
  - apply Htabla. exists [Some r0; Some r1]. split; [reflexivity|]. split; [|reflexivity].
    intros [|[|k]] o Ho; [injection Ho as <-; exact H0|injection Ho as <-; exact H1|].
    discriminate Ho.
  - destruct (Hventana 0%nat ltac:(vm_compute; lia)) as (_ & _ & Hr0).
    destruct (Hventana 1%nat ltac:(vm_compute; lia)) as (_ & _ & Hr1).
    destruct (Hr0 r0 H0) as [Hi0 Hf0]. destruct (Hr1 r1 H1) as [Hi1 Hf1].
    assert (Hfechas : fechas_de datos_tres_fechas = [0; 1; 2]) by (vm_compute; reflexivity).
    rewrite Hfechas in Hi0, Hf0, Hi1, Hf1.
    change (Some 0 = Some (Inicio_Ventana r0)) in Hi0.
    change (Some 1 = Some (Fin_Ventana r0)) in Hf0.
    change (Some 1 = Some (Inicio_Ventana r1)) in Hi1.
    change (Some 2 = Some (Fin_Ventana r1)) in Hf1.
    repeat split; congruence.
Defined.

(** ** The percentages of the report *)



(** ** A failing level-stationarity test *)

(** C6, as the code has it: when [kpss] raises [ValueError] on the returns
    of a window with at least two valid prices, [pruebas_estacionariedad]
    returns with a null p-value and the text of the error under ['KPSS']; the
    window yields its row, with a null KPSS p-value; and the loop goes on:
    when every window is evaluated without exception the table is made of all
    their rows, this one among them, and an exception of a later window still
    ends the run.  (An exception of [kpss] of another class is not caught.) *)
Theorem analizar_estacionariedad_kpss_falla `{R : Routines} (data : DataFrame)
    (close : list float) (w : Z) (k : nat) (a : float * float) (msg : string)
    (h : float) :
  columns data !! "Close" = Some (Floats close) →
  let fechas := fechas_de data in
  let n := Z.to_nat (len fechas - w + 1) in
  let body := evaluar_ventana (con_fecha data) fechas w in
  let precios :=
    precios_validos (date_of <$> index data) close
      (py_slice fechas (Z.of_nat k) (Z.of_nat k + w)) in
  let retornos := dropna (pct_change precios) in
  (k < n)%nat →
  2 ≤ len precios →
  adfuller retornos = inr a →
  kpss retornos "c" "auto" = inl (ValueError msg) →
  calcular_hurst retornos = inr h →
  pruebas_estacionariedad retornos = ok (mkPruebas (mkADF a.2 a.1) (KPSSError msg))
  ∧ ∃ r, body (Z.of_nat k) = ok (Some r)
      ∧ ADF_p_value r = a.2
      ∧ KPSS_p_value r = None
      ∧ (∀ outs, length outs = n →
           (∀ (j : nat) o, outs !! j = Some o → body (Z.of_nat j) = inr o) →
           snd (analizar_estacionariedad data w) = ok (pd_DataFrame (omap id outs))
           ∧ outs !! k = Some (Some r)
           ∧ r ∈ omap id outs)
      ∧ (∀ (j : nat) e, (k < j < n)%nat →
           (∀ i : nat, (i < j)%nat → ∃ o, body (Z.of_nat i) = inr o) →
           body (Z.of_nat j) = inl e →
           snd (analizar_estacionariedad data w) = raise e).
Proof.
  intros Hc fechas n body precios retornos Hk Hlen Hadf Hkpss Hh.
  assert (Hp : pruebas_estacionariedad retornos
               = ok (mkPruebas (mkADF a.2 a.1) (KPSSError msg))).
  { unfold pruebas_estacionariedad. rewrite Hadf. simpl. by rewrite Hkpss. }
  split; [done|].
  assert (Hv : py_slice fechas (Z.of_nat k) (Z.of_nat k + w) ≠ []).
  { intros Hnil. unfold precios in Hlen. rewrite Hnil, precios_validos_nil in Hlen.
    unfold len in Hlen. simpl in Hlen. lia. }
  destruct (first_item_ok _ Hv) as [inicio Hi].
  destruct (last_item_ok _ Hv) as [final Hf].
  set (r := mkWindowResult inicio final a.2 None h (Series_std ddof_default retornos)).
  assert (Hbody : body (Z.of_nat k) = ok (Some r)).
  { unfold body. rewrite (evaluar_ventana_con_fecha data close) by done.
    unfold evaluar_precios. fold fechas precios.
    destruct (Z.ltb_spec (len precios) 2); [lia|]. fold retornos.
    rewrite Hp. simpl. rewrite Hh. simpl. rewrite Hi. simpl. by rewrite Hf. }
  assert (Hrun : snd (analizar_estacionariedad data w) =
                 (resultados ←! for_each body (range (len fechas - w + 1)) [];
                  ok (pd_DataFrame resultados))).
  { by rewrite analizar_estacionariedad_eq. }
  exists r. split; [done|]. split; [done|]. split; [done|]. split.
  - intros outs Hn HP.
    assert (Hok : outs !! k = Some (Some r)).
    { destruct (lookup_lt_is_Some_2 outs k) as [o Ho]; [lia|].
      pose proof (HP k o Ho) as Hko. rewrite Hbody in Hko. injection Hko as <-. done. }
    split; [|split; [done|]].
    + rewrite Hrun, (for_each_ok body _ [] outs); [done|].
      apply Forall2_range. split; [done|exact HP].
    + apply list_elem_of_omap. exists (Some r). split; [|done].
      by apply (list_elem_of_lookup_2 _ k).
  - intros j e Hj Hpre He. rewrite Hrun.
    rewrite (range_split _ j) by lia.
    rewrite (for_each_raise body _ _ _ _ e); [done| |done].
    apply Forall_forall. intros i (i' & -> & Hi')%list_elem_of_fmap.
    apply Hpre. apply elem_of_seq in Hi'. lia.
Qed.

Lemma analizar_estacionariedad_kpss_falla_witness :
  columns datos_tres_fechas !! "Close"
    = Some (Floats [Some 10%Q; Some 11%Q; Some 12%Q; Some 11%Q; Some 13%Q; Some 14%Q])
  ∧ ∃ r0 r1,
      snd (analizar_estacionariedad (R := rutinas_kpss_falla_primera datos_tres_fechas)
             datos_tres_fechas 2) = ok (pd_DataFrame [r0; r1])
      ∧ KPSS_p_value r0 = None
      ∧ KPSS_p_value r1 = Some 0.1%Q.
Proof.
  split; [reflexivity|].
  pose (R := rutinas_kpss_falla_primera datos_tres_fechas).
  assert (H1 : ∃ r, evaluar_ventana (R := R) (con_fecha datos_tres_fechas)
                      (fechas_de datos_tres_fechas) 2 (Z.of_nat 1) = ok (Some r)
                    ∧ KPSS_p_value r = Some 0.1%Q)
    by (eexists; split; vm_compute; reflexivity).
  destruct H1 as (r1 & H1 & Hk1).
  destruct (analizar_estacionariedad_kpss_falla (R := R) datos_tres_fechas
              [Some 10%Q; Some 11%Q; Some 12%Q; Some 11%Q; Some 13%Q; Some 14%Q]
              2 0 (Some (-3)%Q, Some 0.01%Q) "cannot convert float NaN to integer" None
              eq_refl) as (_ & r0 & H0 & _ & Hk0 & Htabla & _).
  - vm_compute. lia.
  - vm_compute. discriminate.
  - reflexivity.
  - vm_compute. reflexivity.
  - vm_compute. reflexivity.
  - exists r0, r1. split; [|split; [exact Hk0|exact Hk1]].
    destruct (Htabla [Some r0; Some r1]) as (Hrun & _); [reflexivity| |exact Hrun].
    intros [|[|j]] o Ho; [injection Ho as <-; exact H0|injection Ho as <-; exact H1|].
    discriminate Ho.
Defined.

(** A failure of [kpss] that is not a [ValueError] is not recorded: it
    leaves [pruebas_estacionariedad] as an exception. *)
Lemma pruebas_estacionariedad_kpss_contraejemplo :
  ¬ (∀ (R : Routines) (retornos : list Q) (a : float * float) (e : Exn),
       adfuller retornos = inr a →
       kpss retornos "c" "auto" = inl e →
       ∃ p, pruebas_estacionariedad retornos = ok p ∧ get_p_value (KPSS p) = None).
Proof.
  intros Hclaim.
  destruct (Hclaim (rutinas_kpss_fpe datos_tres_fechas) [0.1%Q; 0.2%Q]
              (Some (-3)%Q, Some 0.01%Q)
              (FloatingPointError "divide by zero encountered in scalar divide")
              eq_refl eq_refl) as (p & Hp & _).
  discriminate Hp.
Qed.

(** * The analysis in the state of the libraries *)

Section Estado.
Context {S : Type} `{RS : RutinasEstado S}.

Lemma analizar_estacionariedad_st_eq data w s :
  analizar_estacionariedad_st data w s =
  match for_each_st (evaluar_ventana_st (con_fecha data) (fechas_de data) w)
          (range (len (fechas_de data) - w + 1)) [] s with
  | (s1, inl e) => (s1, (con_fecha data, raise e))
  | (s1, inr resultados) => (s1, (con_fecha data, ok (pd_DataFrame resultados)))
  end.
Proof.
  unfold analizar_estacionariedad_st, con_fecha, getitem, setitem. simpl.
  by rewrite lookup_insert_eq.
Qed.

Lemma for_each_st_ext (body1 body2 : Z → St S (option WindowResult)) idx acc s :
  (∀ i s', body1 i s' = body2 i s') →
  for_each_st body1 idx acc s = for_each_st body2 idx acc s.
Proof.
  intros Hext. revert acc s. induction idx as [|i idx IH]; intros acc s; simpl; [done|].
  rewrite Hext. destruct (body2 i s) as [s1 [e|[r|]]]; auto.
Qed.

(** The body reads its frame only through the columns ['date'] and
    ['Close']. *)
Lemma evaluar_ventana_st_ext data1 data2 fechas w i s :
  columns data1 !! "date" = columns data2 !! "date" →
  columns data1 !! "Close" = columns data2 !! "Close" →
  evaluar_ventana_st data1 fechas w i s = evaluar_ventana_st data2 fechas w i s.
Proof.
  intros Hd Hc. unfold evaluar_ventana_st, bind_st, lift_st, getitem at 1 4. rewrite Hd.
  destruct (columns data2 !! "date") as [date|]; simpl; [|done].
  rewrite !getitem_mask_frame. unfold getitem. rewrite Hc.
  destruct (columns data2 !! "Close") as [[xs|ds]|]; simpl; done.
Qed.

(** The frame that a first call has left is analysed as the frame itself. *)
Lemma analizar_estacionariedad_st_con_fecha data w s :
  analizar_estacionariedad_st (con_fecha data) w s = analizar_estacionariedad_st data w s.
Proof.
  rewrite !analizar_estacionariedad_st_eq, con_fecha_idem. reflexivity.
Qed.

Lemma frame_analizar_estacionariedad_st data w s :
  (analizar_estacionariedad_st data w s).2.1 = con_fecha data.
Proof.
  rewrite analizar_estacionariedad_st_eq.
  by destruct (for_each_st _ _ _ s) as [s1 [e|res]].
Qed.

Section Respuestas.
Hypothesis Hsin : respuestas_sin_estado RS.

Lemma pruebas_estacionariedad_st_respuesta data s s' :
  (pruebas_estacionariedad_st data s).2 = (pruebas_estacionariedad_st data s').2.
Proof.
  destruct Hsin as (Hadf & Hkpss & _).
  unfold pruebas_estacionariedad_st, bind_st.
  pose proof (Hadf s s' data) as Ha.
  destruct (adfuller_st s data) as [s1 ra], (adfuller_st s' data) as [s1' ra'].
  simpl in Ha. subst ra'. destruct ra as [e|adf]; [done|].
  pose proof (Hkpss s1 s1' data "c" "auto") as Hk.
  destruct (kpss_st s1 data "c" "auto") as [s2 rk],
    (kpss_st s1' data "c" "auto") as [s2' rk'].
  simpl in Hk. subst rk'. by destruct rk as [[]|].
Qed.

Lemma calcular_hurst_st_respuesta data s s' :
  (calcular_hurst_st data s).2 = (calcular_hurst_st data s').2.
Proof.
  destruct Hsin as (_ & _ & Hhc).
  unfold calcular_hurst_st, lift_st. destruct (len data <? 100); [done|].
  pose proof (Hhc s s' data "price" true) as Hh.
  destruct (compute_Hc_st s data "price" true) as [s1 r],
    (compute_Hc_st s' data "price" true) as [s1' r'].
  simpl in Hh. subst r'. by destruct r as [[]|[[H c] rs]].
Qed.

Lemma evaluar_ventana_st_respuesta data fechas w i s s' :
  (evaluar_ventana_st data fechas w i s).2 = (evaluar_ventana_st data fechas w i s').2.
Proof.
  unfold evaluar_ventana_st, bind_st, lift_st.
  destruct (getitem data "date") as [|date]; [done|].
  destruct (getitem (mask_frame _ data) "Close") as [|close]; [done|].
  destruct (col_gt close 0) as [|positivos]; [done|].
  destruct (len _ <? 2); [done|].
  match goal with |- context [pruebas_estacionariedad_st ?xs s] => set (retornos := xs) end.
  pose proof (pruebas_estacionariedad_st_respuesta retornos s s') as Hp.
  destruct (pruebas_estacionariedad_st retornos s) as [s1 rp],
    (pruebas_estacionariedad_st retornos s') as [s1' rp'].
  simpl in Hp. subst rp'. destruct rp as [e|est]; [done|].
  pose proof (calcular_hurst_st_respuesta retornos s1 s1') as Hh.
  destruct (calcular_hurst_st retornos s1) as [s2 rh],
    (calcular_hurst_st retornos s1') as [s2' rh'].
  simpl in Hh. subst rh'. destruct rh as [e|h]; [done|].
  destruct (first_item _); [done|]. by destruct (last_item _).
Qed.

Lemma for_each_st_respuesta (body : Z → St S (option WindowResult)) idx acc s s' :
  (∀ i t t', (body i t).2 = (body i t').2) →
  (for_each_st body idx acc s).2 = (for_each_st body idx acc s').2.
Proof.
  intros Hbody. revert acc s s'.
  induction idx as [|i idx IH]; intros acc s s'; simpl; [done|].
  pose proof (Hbody i s s') as Hb.
  destruct (body i s) as [s1 r], (body i s') as [s1' r'].
  simpl in Hb. subst r'. destruct r as [e|[r|]]; [done|apply IH..].
Qed.

Lemma analizar_estacionariedad_st_respuesta data w s s' :
  (analizar_estacionariedad_st data w s).2 = (analizar_estacionariedad_st data w s').2.
Proof.
  rewrite !analizar_estacionariedad_st_eq.
  pose proof (for_each_st_respuesta
                (evaluar_ventana_st (con_fecha data) (fechas_de data) w)
                (range (len (fechas_de data) - w + 1)) [] s s'
                (evaluar_ventana_st_respuesta _ _ _)) as Hloop.
  destruct (for_each_st _ _ _ s) as [s1 r], (for_each_st _ _ _ s') as [s1' r'].
  simpl in Hloop. subst r'. by destruct r.
Qed.
End Respuestas.
End Estado.

(** With routines that ignore the state, the analysis in the state of the
    libraries is the analysis without it. *)
Lemma analizar_estacionariedad_st_sin_estado (S : Type) (R : Routines) data w (s : S) :
  analizar_estacionariedad_st (RS := sin_estado S R) data w s
  = (s, analizar_estacionariedad data w).
Proof.
  assert (Hbody : ∀ d fechas i (t : S),
            evaluar_ventana_st (RS := sin_estado S R) d fechas w i t
            = (t, evaluar_ventana d fechas w i)).
  { intros d fechas i t. unfold evaluar_ventana_st, evaluar_ventana, bind_st, lift_st.
    destruct (getitem d "date") as [|date]; simpl; [done|].
    destruct (getitem (mask_frame _ d) "Close") as [|close]; simpl; [done|].
    destruct (col_gt close 0) as [|positivos]; simpl; [done|].
    destruct (len _ <? 2); [done|].
    unfold pruebas_estacionariedad_st, pruebas_estacionariedad, bind_st. simpl.
    destruct (adfuller _) as [|a]; simpl; [done|].
    unfold calcular_hurst_st, calcular_hurst, lift_st.
    destruct (kpss _ "c" "auto") as [[]|kp]; simpl; try done.
    - destruct (len _ <? 100); simpl.
      + destruct (first_item _); simpl; [done|]. by destruct (last_item _).
      + destruct (compute_Hc _ "price" true) as [[]|[[H c] rs]]; simpl; try done;
          (destruct (first_item _); simpl; [done|]; by destruct (last_item _)).
    - destruct (len _ <? 100); simpl.
      + destruct (first_item _); simpl; [done|]. by destruct (last_item _).
      + destruct (compute_Hc _ "price" true) as [[]|[[H c] rs]]; simpl; try done;
          (destruct (first_item _); simpl; [done|]; by destruct (last_item _)). }
  assert (Hloop : ∀ d fechas idx acc (t : S),
            for_each_st (evaluar_ventana_st (RS := sin_estado S R) d fechas w) idx acc t
            = (t, for_each (evaluar_ventana d fechas w) idx acc)).
  { intros d fechas idx. induction idx as [|i idx IH]; intros acc t; simpl; [done|].
    rewrite Hbody. destruct (evaluar_ventana d fechas w i) as [e|[r|]]; [done|apply IH..]. }
  rewrite analizar_estacionariedad_st_eq, analizar_estacionariedad_eq, Hloop.
  by destruct (for_each _ _ []).
Qed.

(** ** The effect on the input frame *)

(** C4, as the code has it: [analizar_estacionariedad] changes the frame it
    is given: it assigns the column ['date'], with the calendar dates of the
    index, and leaves the index and every other column as they were.  For a
    given state of the libraries, the table it returns (or its exception),
    the state it leaves and the report [generar_reporte] makes of the table
    depend on the frame only through the index and the column ['Close'], and
    on the window size. *)
Theorem analizar_estacionariedad_st_efecto {S : Type} `{RS : RutinasEstado S}
    (s : S) (data : DataFrame) (w : Z) :
  let run := analizar_estacionariedad_st data w s in
  run.2.1 = setitem data "date" (Dates (date_of <$> index data))
  ∧ index run.2.1 = index data
  ∧ (∀ k, k ≠ "date" → columns run.2.1 !! k = columns data !! k)
  ∧ (∀ data2, index data2 = index data →
       columns data2 !! "Close" = columns data !! "Close" →
       let run2 := analizar_estacionariedad_st data2 w s in
       run2.1 = run.1
       ∧ run2.2.2 = run.2.2
       ∧ bind run2.2.2 generar_reporte = bind run.2.2 generar_reporte).
Proof.
  intros run.
  assert (Hframe : run.2.1 = con_fecha data) by apply frame_analizar_estacionariedad_st.
  rewrite Hframe. split; [done|]. split; [done|]. split.
  - intros k Hk. unfold con_fecha, setitem. simpl. by rewrite lookup_insert_ne.
  - intros data2 Hidx Hclose run2.
    assert (Hrun : (run2.1, run2.2.2) = (run.1, run.2.2)).
    { unfold run, run2. rewrite !analizar_estacionariedad_st_eq.
      assert (Hf : fechas_de data2 = fechas_de data) by (unfold fechas_de; by rewrite Hidx).
      rewrite Hf.
      rewrite (for_each_st_ext (evaluar_ventana_st (con_fecha data2) (fechas_de data) w)
                 (evaluar_ventana_st (con_fecha data) (fechas_de data) w)).
      - by destruct (for_each_st _ _ _ s) as [s1 [e|res]].
      - intros i t. apply evaluar_ventana_st_ext; unfold con_fecha, setitem; simpl.
        + by rewrite !lookup_insert_eq, Hidx.
        + by rewrite !lookup_insert_ne. }
    injection Hrun as H1 H2. by rewrite H1, H2.
Qed.

(** ** Running twice *)

(** C8, as the code has it: when the answers of [adfuller], [kpss] and
    [compute_Hc] do not depend on the state of the libraries, a second run of
    [analizar_estacionariedad] on the frame the first run has left, in the
    state of the libraries the first run has left, returns the same table (or
    ends with the same exception), leaves the same frame, and gives the same
    report. *)
Theorem analizar_estacionariedad_st_repetible {S : Type} `{RS : RutinasEstado S}
    (s : S) (data : DataFrame) (w : Z) :
  respuestas_sin_estado RS →
  let run1 := analizar_estacionariedad_st data w s in
  let run2 := analizar_estacionariedad_st run1.2.1 w run1.1 in
  run2.2 = run1.2
  ∧ bind run2.2.2 generar_reporte = bind run1.2.2 generar_reporte.
Proof.
  intros Hsin run1 run2.
  assert (Hrun : run2.2 = run1.2).
  { unfold run2, run1. rewrite (frame_analizar_estacionariedad_st data w s).
    rewrite analizar_estacionariedad_st_con_fecha.
    by apply analizar_estacionariedad_st_respuesta. }
  split; [done|]. by rewrite Hrun.
Qed.

Lemma analizar_estacionariedad_st_repetible_witness :
  respuestas_sin_estado rutinas_contador
  ∧ (analizar_estacionariedad_st (RS := rutinas_contador) datos_tres_fechas 2 0%nat).1
    = 4%nat
  ∧ (analizar_estacionariedad_st (RS := rutinas_contador)
       (analizar_estacionariedad_st (RS := rutinas_contador) datos_tres_fechas 2 0%nat).2.1
       2
       (analizar_estacionariedad_st (RS := rutinas_contador) datos_tres_fechas 2 0%nat).1).2
    = (analizar_estacionariedad_st (RS := rutinas_contador) datos_tres_fechas 2 0%nat).2.
Proof.
  assert (Hsin : respuestas_sin_estado rutinas_contador).
  { split; [|split]; intros; reflexivity. }
  split; [exact Hsin|]. split; [vm_compute; reflexivity|].
  apply (analizar_estacionariedad_st_repetible (RS := rutinas_contador)
           0%nat datos_tres_fechas 2 Hsin).
Defined.

Lemma fechas_de_precio_fijo : fechas_de datos_precio_fijo = [0].
Proof. vm_compute. reflexivity. Qed.

(** Run from the mode in which floating-point errors do not raise, the
    analysis of [datos_precio_fijo] returns a table and leaves the mode
    raising. *)
Lemma precio_fijo_primera :
  (analizar_estacionariedad_st (RS := rutinas_modo_numpy) datos_precio_fijo 1 false).1
    = true
  ∧ ∃ T, (analizar_estacionariedad_st (RS := rutinas_modo_numpy)
            datos_precio_fijo 1 false).2.2 = inr T.
Proof.
  rewrite analizar_estacionariedad_st_eq, fechas_de_precio_fijo.
  change (range (len [0] - 1 + 1)) with [0].
  destruct (for_each_st _ [0] [] false) as [s1 r] eqn:Hloop.
  assert (Hs : s1 = true).
  { apply (f_equal fst) in Hloop. lazy in Hloop. by symmetry. }
  assert (Hr : (match r with inl _ => false | inr _ => true end) = true).
  { apply (f_equal (fun p => match p.2 with inl _ => false | inr _ => true end)) in Hloop.
    lazy in Hloop. by symmetry. }
  destruct r as [e|res]; [discriminate Hr|]. simpl. split; [done|eauto].
Qed.

(** Run again in the mode the first run has left, it ends with an
    exception. *)
Lemma precio_fijo_segunda :
  (analizar_estacionariedad_st (RS := rutinas_modo_numpy)
     (con_fecha datos_precio_fijo) 1 true).2.2
  = raise (FloatingPointError "divide by zero encountered in scalar divide").
Proof.
  rewrite analizar_estacionariedad_st_con_fecha.
  rewrite analizar_estacionariedad_st_eq, fechas_de_precio_fijo.
  change (range (len [0] - 1 + 1)) with [0].
  destruct (for_each_st _ [0] [] true) as [s1 r] eqn:Hloop.
  apply (f_equal snd) in Hloop. lazy in Hloop. by subst r.
Qed.

(** Two runs do not always agree: when the libraries keep state that the
    answers depend on, as the error mode of numpy that [compute_Hc] leaves
    raising, the second run on the same frame ends with an exception where
    the first returned a table. *)
Lemma analizar_estacionariedad_st_no_repetible :
  ¬ (∀ (S : Type) (RS : RutinasEstado S) (s : S) (data : DataFrame) (w : Z),
       (analizar_estacionariedad_st (analizar_estacionariedad_st data w s).2.1 w
          (analizar_estacionariedad_st data w s).1).2.2
       = (analizar_estacionariedad_st data w s).2.2).
Proof.
  intros Hclaim.
  specialize (Hclaim bool rutinas_modo_numpy false datos_precio_fijo 1).
  rewrite (frame_analizar_estacionariedad_st datos_precio_fijo 1 false) in Hclaim.
  destruct precio_fijo_primera as (Hs & T & HT).
  rewrite Hs, HT, precio_fijo_segunda in Hclaim. discriminate Hclaim.
Qed.
